(** * Checkout pricing and order creation (src/main.py)

    A shallow embedding of the [checkout] endpoint of the shopping API and of
    what it relies on: CPython's binary64 [float] arithmetic and
    [round(x, 2)], bson's [ObjectId], the product lookup and the order
    insertion.  Python exceptions are an explicit result type, the document
    store is passed as state, and every collaborator call is logged. *)

From Stdlib Require Import ZArith NArith Bool Ascii String.
From Stdlib Require Import Strings.Byte.
From Stdlib Require Import Floats.SpecFloat.
From stdpp Require Import gmap strings list fin_maps.

Local Open Scope Z_scope.

(** ** Python floats: IEEE 754 binary64, round to nearest, ties to even *)

Module PyFloat.

Definition prec : Z := 53.
Definition emax : Z := 1024.

Definition float : Type := spec_float.

Definition zero : float := S754_zero false.

(** [x + y] and [x * y] on floats: neither raises, they overflow to an
    infinity. *)
Definition add (x y : float) : float := SFadd prec emax x y.
Definition mul (x y : float) : float := SFmul prec emax x y.

(** The float nearest to the rational [p / q]. *)
Definition of_ratio (s : bool) (p q : positive) : float :=
  SFdiv prec emax (S754_finite s p 0) (S754_finite false q 0).

(** A decimal literal of the source text: [literal n k] is [n / 10^k]. *)
Definition literal (n : positive) (k : nat) : float :=
  of_ratio false n (Z.to_pos (10 ^ Z.of_nat k)).

(** [int.__float__]: correctly rounded, [None] for the [OverflowError] of
    an integer too large for a float. *)
Definition of_int (z : Z) : option float :=
  match binary_normalize prec emax z 0 false with
  | S754_infinity _ => None
  | f => Some f
  end.

(** Nearest integer to [a / b] for [0 <= a] and [0 < b], ties to even. *)
Definition div_half_even (a b : Z) : Z :=
  let q := a / b in
  let r := a mod b in
  match 2 * r ?= b with
  | Lt => q
  | Gt => q + 1
  | Eq => if Z.even q then q else q + 1
  end.

(** [round(x, 2)] on a float ([float.__round__] with [ndigits = 2]): the
    exact binary value is rounded to the nearest multiple of 1/100, ties
    to even, and that decimal is converted back to the nearest float.
    Zeros, infinities and NaN round to themselves, the sign is kept. *)
Definition round2 (x : float) : float :=
  match x with
  | S754_finite s m e =>
      let hundredths :=
        match e with
        | Zneg p => div_half_even (Zpos m * 100) (2 ^ Zpos p)
        | _ => Zpos m * 2 ^ e * 100
        end in
      match hundredths with
      | Zpos n => of_ratio s n 100
      | _ => S754_zero s
      end
  | _ => x
  end.

(** Sum of a list of floats the way a [subtotal += x] loop forms it. *)
Definition sum (l : list float) : float := foldl add zero l.

End PyFloat.

Abbreviation float := PyFloat.float.

(** ** Python strings, bytes and bson's ObjectId *)

Module PyStr.

(** [s[-n:]]: the last [n] characters, the whole string when it is
    shorter. *)
Definition last_chars (n : nat) (s : string) : string :=
  string_of_list_ascii
    (drop (String.length s - n)%nat (list_ascii_of_string s)).

(** [Py_ISSPACE]: space, and the control characters 9 to 13. *)
Definition is_space (c : ascii) : bool :=
  let n := N_of_ascii c in
  ((9 <=? n) && (n <=? 13) || (n =? 32))%N.

(** [_PyLong_DigitValue] below 16: the value of a hexadecimal digit of
    either case. *)
Definition hex_digit_value (c : ascii) : option N :=
  let n := N_of_ascii c in
  if ((48 <=? n) && (n <=? 57))%N then Some (n - 48)%N
  else if ((97 <=? n) && (n <=? 102))%N then Some (n - 87)%N
  else if ((65 <=? n) && (n <=? 70))%N then Some (n - 55)%N
  else None.

Definition byte_of_N (n : N) : byte :=
  match Byte.of_N n with Some b => b | None => x00 end.

(** [bytes.fromhex]: two hexadecimal digits per byte, white space between
    the bytes skipped; [None] stands for its [ValueError]. *)
Fixpoint fromhex (s : string) : option (list byte) :=
  match s with
  | EmptyString => Some []
  | String c s' =>
      if is_space c then fromhex s'
      else
        match hex_digit_value c, s' with
        | Some top, String d s'' =>
            match hex_digit_value d with
            | Some bot =>
                match fromhex s'' with
                | Some bs => Some (byte_of_N (16 * top + bot) :: bs)
                | None => None
                end
            | None => None
            end
        | _, _ => None
        end
  end.

Definition hex_digit (n : N) : ascii :=
  if (n <? 10)%N then ascii_of_N (48 + n) else ascii_of_N (87 + n).

(** [binascii.hexlify(bs).decode()]: two lower-case digits per byte. *)
Fixpoint hexlify (bs : list byte) : string :=
  match bs with
  | [] => EmptyString
  | b :: bs' =>
      let n := Byte.to_N b in
      String (hex_digit (n / 16)) (String (hex_digit (n mod 16)) (hexlify bs'))
  end.

(** The [len] low bytes of [n], most significant first. *)
Fixpoint to_bytes_be (len : nat) (n : N) : list byte :=
  match len with
  | O => []
  | S k => to_bytes_be k (n / 256) ++ [byte_of_N (n mod 256)]
  end.

End PyStr.

#[global] Instance byte_eq_dec : EqDecision byte := Byte.byte_eq_dec.

(** ** Exceptions and outcomes *)

(** The exceptions of a run other than [HTTPException]. *)
Inductive error : Type :=
| InvalidId (oid : string)        (* bson.errors.InvalidId *)
| TypeError
| AttributeError
| OverflowError
| ValueError
| CollaboratorError (msg : string). (* raised by a collaborator *)

(** The [detail] of an [HTTPException]: a literal text, or [str(e)]. *)
Inductive detail : Type :=
| Detail (text : string)
| DetailStr (e : error).

Inductive exn : Type :=
| Raised (e : error)
| HTTPException (status_code : Z) (d : detail).

Inductive result (A : Type) : Type :=
| Ok (a : A)
| Raise (e : exn).
Arguments Ok {A} a.
Arguments Raise {A} e.

Module ObjectId.

(** An ObjectId is its binary. *)
Definition t : Type := list byte.

(** [ObjectId(oid)] on a string: 24 characters that [bytes.fromhex]
    accepts, [InvalidId] otherwise. *)
Definition of_str (oid : string) : result t :=
  if (String.length oid =? 24)%nat then
    match PyStr.fromhex oid with
    | Some bs => Ok bs
    | None => Raise (Raised (InvalidId oid))
    end
  else Raise (Raised (InvalidId oid)).

(** [ObjectId()]: a fresh identifier of 12 bytes.  What the generator
    yields (time stamp, random value, counter) is the number [seed]. *)
Definition generate (seed : N) : t := PyStr.to_bytes_be 12 seed.

(** [str(oid)] *)
Definition str (oid : t) : string := PyStr.hexlify oid.

End ObjectId.

(** ** A small monad interface, for pure outcomes and for stateful runs *)

Class Monad (m : Type -> Type) : Type := {
  ret : forall {A : Type}, A -> m A;
  bind : forall {A B : Type}, m A -> (A -> m B) -> m B
}.

Notation "x <- c1 ;; c2" := (bind c1 (fun x => c2))
  (at level 100, c1 at next level, right associativity).

#[global] Instance result_monad : Monad result := {|
  ret := fun A a => Ok a;
  bind := fun A B r k => match r with Ok a => k a | Raise e => Raise e end
|}.

(** A list comprehension whose element expression may raise: the elements
    are evaluated in order and the first exception ends it. *)
Fixpoint comprehension {A B : Type} (f : A -> result B) (l : list A)
  : result (list B) :=
  match l with
  | [] => Ok []
  | a :: l' =>
      b <- f a ;;
      bs <- comprehension f l' ;;
      ret (b :: bs)
  end.

(** ** The data model *)

Module CartItem.
Record t : Type := { product_id : string; quantity : Z }.
End CartItem.

Module CheckoutRequest.
Record t : Type := {
  customer_name : string;
  customer_email : string;
  customer_address : string;
  items : list CartItem.t
}.
End CheckoutRequest.

(** What the product collection holds under the key ["price"], as far as
    [float()] tells values apart. *)
Inductive price_value : Type :=
| PFloat (f : float)                (* a BSON double *)
| PInt (z : Z)                      (* a BSON int32 or int64 *)
| PNull                             (* BSON null, Python None *)
| PForeign (coerced : option float).
  (* any other value (a string, a Decimal128, ...), given by what float()
     makes of it: the float, or None when it raises *)

Module Product.
(** A document of the product collection, with the three keys [checkout]
    reads.  [None] is an absent key (for the title also a null). *)
Record doc : Type := {
  _id : ObjectId.t;
  title : option string;
  price : option price_value
}.
End Product.

(** One dict of [line_items]. *)
Module LineItem.
Record t : Type := {
  product_id : string;
  title : option string;
  quantity : Z;
  unit_price : float;
  line_total : float
}.
End LineItem.

(** The keyword arguments given to [Order(...)]. *)
Module Order.
Record t : Type := {
  customer_name : string;
  customer_email : string;
  customer_address : string;
  items : list LineItem.t;
  subtotal : float;
  tax : float;
  total : float;
  invoice_number : string
}.
End Order.

(** The dict [checkout] returns. *)
Module Response.
Record t : Type := {
  order_id : string;
  invoice_number : string;
  subtotal : float;
  tax : float;
  total : float;
  items : list LineItem.t
}.
End Response.

(** ** The document store and the collaborators *)

Inductive call : Type :=
| CallFind (ids : list ObjectId.t)
| CallCreate (o : Order.t).

(** The two collections, and the log of the collaborator calls made. *)
Record World : Type := {
  product : list Product.doc;
  order : list (string * Order.t);
  calls : list call
}.

(** What a run cannot decide by itself: which collaborator fails, and the
    identifiers that are generated. *)
Record Env : Type := {
  find_raises : option error;
    (* the lookup fails: no database handle, server unreachable, ... *)
  Order_raises : Order.t -> option error;
    (* the validation of schemas.Order, a declaration the module imports *)
  create_raises : option error;
    (* create_document fails *)
  new_oid : N;
    (* what ObjectId() generates for the invoice number *)
  new_order_id : string
    (* the identifier the store assigns to the inserted order *)
}.

Definition M (A : Type) : Type := World -> result A * World.

#[global] Instance M_monad : Monad M := {|
  ret := fun A a w => (Ok a, w);
  bind := fun A B c k w =>
    match c w with
    | (Ok a, w') => k a w'
    | (Raise e, w') => (Raise e, w')
    end
|}.

Definition raise {A : Type} (e : exn) : M A := fun w => (Raise e, w).

Definition lift {A : Type} (r : result A) : M A := fun w => (r, w).

Definition try_except {A : Type} (body : M A) (handler : exn -> M A) : M A :=
  fun w =>
    match body w with
    | (Ok a, w') => (Ok a, w')
    | (Raise e, w') => handler e w'
    end.

Definition log (c : call) : M unit :=
  fun w => (Ok tt, {| product := product w; order := order w;
                      calls := calls w ++ [c] |}).

(** [db["product"].find({"_id": {"$in": ids}})], iterated to its end: the
    documents of the collection whose [_id] is one of [ids], each once, in
    the collection's order. *)
Definition find (env : Env) (ids : list ObjectId.t) : M (list Product.doc) :=
  _ <- log (CallFind ids) ;;
  match find_raises env with
  | Some e => raise (Raised e)
  | None =>
      fun w =>
        (Ok (filter (fun d => Product._id d ∈ ids) (product w)), w)
  end.

(** [Order(...)]: the record, unless the schema rejects it. *)
Definition Order_new (env : Env) (o : Order.t) : M Order.t :=
  match Order_raises env o with
  | Some e => raise (Raised e)
  | None => ret o
  end.

(** Modelled from the spec: [create_document] of the database module, which
    is not part of the sources.  It inserts the record into the order
    collection and returns the newly assigned identifier; when it fails
    nothing is inserted. *)
Definition create_document (env : Env) (o : Order.t) : M string :=
  _ <- log (CallCreate o) ;;
  match create_raises env with
  | Some e => raise (Raised e)
  | None =>
      fun w =>
        (Ok (new_order_id env),
         {| product := product w;
            order := order w ++ [(new_order_id env, o)];
            calls := calls w |})
  end.

(** ** checkout *)

(** [float(v)] *)
Definition py_float (v : price_value) : result float :=
  match v with
  | PFloat f => Ok f
  | PInt z =>
      match PyFloat.of_int z with
      | Some f => Ok f
      | None => Raise (Raised OverflowError)
      end
  | PNull => Raise (Raised TypeError)
  | PForeign (Some f) => Ok f
  | PForeign None => Raise (Raised ValueError)
  end.

(** [x * n] for a float [x] and an int [n]: [n] is converted first. *)
Definition mul_int (x : float) (n : Z) : result float :=
  match PyFloat.of_int n with
  | Some f => Ok (PyFloat.mul x f)
  | None => Raise (Raised OverflowError)
  end.

(** The dict built by [for p in products: product_map[str(p["_id"])] = p]. *)
Definition build_product_map (products : list Product.doc)
  : gmap string Product.doc :=
  foldl (fun m p => <[ObjectId.str (Product._id p) := p]> m) ∅ products.

(** One pass of the loop over [payload.items] once [prod] is a product
    document, up to the new line item. *)
Definition line_item (prod : Product.doc) (item : CartItem.t)
  : result LineItem.t :=
  unit_price <- py_float (default (PInt 0) (Product.price prod)) ;;
  line_total <- mul_int unit_price (CartItem.quantity item) ;;
  ret {| LineItem.product_id := CartItem.product_id item;
         LineItem.title := Product.title prod;
         LineItem.quantity := CartItem.quantity item;
         LineItem.unit_price := unit_price;
         LineItem.line_total := line_total |}.

(** One pass of the loop.  [product_map.get] yields None for an absent key,
    on which [prod.get] raises. *)
Definition price_line (product_map : gmap string Product.doc)
    (item : CartItem.t) : result LineItem.t :=
  match product_map !! CartItem.product_id item with
  | None => Raise (Raised AttributeError)
  | Some prod => line_item prod item
  end.

(** The loop, from the values [line_items] and [subtotal] have when it is
    entered. *)
Fixpoint price_lines (product_map : gmap string Product.doc)
    (items : list CartItem.t) (line_items : list LineItem.t)
    (subtotal : float) : result (list LineItem.t * float) :=
  match items with
  | [] => Ok (line_items, subtotal)
  | item :: rest =>
      li <- price_line product_map item ;;
      price_lines product_map rest (line_items ++ [li])
        (PyFloat.add subtotal (LineItem.line_total li))
  end.

Definition tax_rate : float := PyFloat.literal 1 1.

Definition not_found : exn :=
  HTTPException 400 (Detail "One or more products not found").

(** The invoice number made from a generated identifier. *)
Definition invoice_number_of (oid : ObjectId.t) : string :=
  PyStr.last_chars 8 ("INV-" +:+ ObjectId.str oid).

(** The body of the [try] statement. *)
Definition checkout_body (env : Env) (payload : CheckoutRequest.t)
  : M Response.t :=
  product_ids <-
    lift (comprehension (fun i => ObjectId.of_str (CartItem.product_id i))
            (CheckoutRequest.items payload)) ;;
  products <- find env product_ids ;;
  let product_map := build_product_map products in
  if negb (size product_map =? length product_ids)%nat then raise not_found
  else
    priced <-
      lift (price_lines product_map (CheckoutRequest.items payload) []
              PyFloat.zero) ;;
    let line_items := fst priced in
    let subtotal := snd priced in
    let tax := PyFloat.round2 (PyFloat.mul subtotal tax_rate) in
    let total := PyFloat.round2 (PyFloat.add subtotal tax) in
    let invoice_number := invoice_number_of (ObjectId.generate (new_oid env)) in
    order <-
      Order_new env
        {| Order.customer_name := CheckoutRequest.customer_name payload;
           Order.customer_email := CheckoutRequest.customer_email payload;
           Order.customer_address := CheckoutRequest.customer_address payload;
           Order.items := line_items;
           Order.subtotal := PyFloat.round2 subtotal;
           Order.tax := tax;
           Order.total := total;
           Order.invoice_number := invoice_number |} ;;
    order_id <- create_document env order ;;
    ret {| Response.order_id := order_id;
           Response.invoice_number := invoice_number;
           Response.subtotal := PyFloat.round2 subtotal;
           Response.tax := tax;
           Response.total := total;
           Response.items := line_items |}.

(** The two [except] clauses: an [HTTPException] is raised again, any other
    exception becomes a 500 whose detail is [str(e)]. *)
Definition handler {A : Type} (e : exn) : M A :=
  match e with
  | HTTPException status_code d => raise (HTTPException status_code d)
  | Raised e' => raise (HTTPException 500 (DetailStr e'))
  end.

Definition checkout (env : Env) (payload : CheckoutRequest.t) : M Response.t :=
  try_except (checkout_body env payload) handler.

(** ** The runs of checkout, path by path *)

(** The record given to [Order(...)] and the dict returned, from the values
    the loop leaves in [line_items] and [subtotal]. *)
Definition order_of (env : Env) (payload : CheckoutRequest.t)
    (line_items : list LineItem.t) (subtotal : float) : Order.t :=
  let tax := PyFloat.round2 (PyFloat.mul subtotal tax_rate) in
  {| Order.customer_name := CheckoutRequest.customer_name payload;
     Order.customer_email := CheckoutRequest.customer_email payload;
     Order.customer_address := CheckoutRequest.customer_address payload;
     Order.items := line_items;
     Order.subtotal := PyFloat.round2 subtotal;
     Order.tax := tax;
     Order.total := PyFloat.round2 (PyFloat.add subtotal tax);
     Order.invoice_number := invoice_number_of (ObjectId.generate (new_oid env)) |}.

Definition response_of (env : Env) (line_items : list LineItem.t)
    (subtotal : float) : Response.t :=
  let tax := PyFloat.round2 (PyFloat.mul subtotal tax_rate) in
  {| Response.order_id := new_order_id env;
     Response.invoice_number := invoice_number_of (ObjectId.generate (new_oid env));
     Response.subtotal := PyFloat.round2 subtotal;
     Response.tax := tax;
     Response.total := PyFloat.round2 (PyFloat.add subtotal tax);
     Response.items := line_items |}.

(** The list [product_ids]. *)
Definition parse_ids (payload : CheckoutRequest.t) : result (list ObjectId.t) :=
  comprehension (fun i => ObjectId.of_str (CartItem.product_id i))
    (CheckoutRequest.items payload).

(** The documents the lookup yields for [ids]. *)
Definition found (w : World) (ids : list ObjectId.t) : list Product.doc :=
  filter (fun d => Product._id d ∈ ids) (product w).

Definition logged (w : World) (cs : list call) : World :=
  {| product := product w; order := order w; calls := calls w ++ cs |}.

Definition inserted (w : World) (id : string) (o : Order.t) : World :=
  {| product := product w; order := order w ++ [(id, o)]; calls := calls w |}.

(** Every path through the [try] statement and its handlers, with the
    outcome and the store it leaves. *)
Inductive run_spec (env : Env) (payload : CheckoutRequest.t) (w : World)
  : result Response.t * World -> Prop :=
| run_bad_id e :
    parse_ids payload = Raise e ->
    run_spec env payload w (handler e w)
| run_find_raises ids e :
    parse_ids payload = Ok ids ->
    find_raises env = Some e ->
    run_spec env payload w
      (Raise (HTTPException 500 (DetailStr e)), logged w [CallFind ids])
| run_not_found ids :
    parse_ids payload = Ok ids ->
    find_raises env = None ->
    size (build_product_map (found w ids)) ≠ length ids ->
    run_spec env payload w (Raise not_found, logged w [CallFind ids])
| run_loop_raises ids e :
    parse_ids payload = Ok ids ->
    find_raises env = None ->
    size (build_product_map (found w ids)) = length ids ->
    price_lines (build_product_map (found w ids))
      (CheckoutRequest.items payload) [] PyFloat.zero = Raise e ->
    run_spec env payload w (handler e (logged w [CallFind ids]))
| run_order_raises ids line_items subtotal e :
    parse_ids payload = Ok ids ->
    find_raises env = None ->
    size (build_product_map (found w ids)) = length ids ->
    price_lines (build_product_map (found w ids))
      (CheckoutRequest.items payload) [] PyFloat.zero = Ok (line_items, subtotal) ->
    Order_raises env (order_of env payload line_items subtotal) = Some e ->
    run_spec env payload w
      (Raise (HTTPException 500 (DetailStr e)), logged w [CallFind ids])
| run_create_raises ids line_items subtotal e :
    parse_ids payload = Ok ids ->
    find_raises env = None ->
    size (build_product_map (found w ids)) = length ids ->
    price_lines (build_product_map (found w ids))
      (CheckoutRequest.items payload) [] PyFloat.zero = Ok (line_items, subtotal) ->
    Order_raises env (order_of env payload line_items subtotal) = None ->
    create_raises env = Some e ->
    run_spec env payload w
      (Raise (HTTPException 500 (DetailStr e)),
       logged w [CallFind ids; CallCreate (order_of env payload line_items subtotal)])
| run_ok ids line_items subtotal :
    parse_ids payload = Ok ids ->
    find_raises env = None ->
    size (build_product_map (found w ids)) = length ids ->
    price_lines (build_product_map (found w ids))
      (CheckoutRequest.items payload) [] PyFloat.zero = Ok (line_items, subtotal) ->
    Order_raises env (order_of env payload line_items subtotal) = None ->
    create_raises env = None ->
    run_spec env payload w
      (Ok (response_of env line_items subtotal),
       inserted (logged w [CallFind ids; CallCreate (order_of env payload line_items subtotal)])
         (new_order_id env) (order_of env payload line_items subtotal)).


(** The same environment with another fate for [create_document]. *)
Definition with_create_raises (env : Env) (f : option error) : Env :=
  {| find_raises := find_raises env;
     Order_raises := Order_raises env;
     create_raises := f;
     new_oid := new_oid env;
     new_order_id := new_order_id env |}.

(** A generic server error: status 500, the detail made from the
    exception. *)
Definition server_error (x : exn) : Prop :=
  exists e, x = HTTPException 500 (DetailStr e).

(** The digits [hexlify] writes. *)
Definition is_lower_hex (c : ascii) : bool :=
  let n := N_of_ascii c in
  ((48 <=? n) && (n <=? 57) || (97 <=? n) && (n <=? 102))%N.

(** ** Runs on concrete carts *)

Module Examples.

Definition healthy : Env :=
  {| find_raises := None;
     Order_raises := fun _ => None;
     create_raises := None;
     new_oid := 31415926535897932384626433832%N;
     new_order_id := "66a0000000000000000000f1" |}.

Definition id_a : string := "64b7f0c2a1b2c3d4e5f60718".
Definition id_b : string := "64b7f0c2a1b2c3d4e5f60719".
Definition id_c : string := "64b7f0c2a1b2c3d4e5f6071a".
Definition id_missing : string := "000000000000000000000000".

Definition oid_of (s : string) : ObjectId.t :=
  default [] (PyStr.fromhex s).

Definition doc (s : string) (t : string) (p : option price_value)
  : Product.doc :=
  {| Product._id := oid_of s; Product.title := Some t; Product.price := p |}.

Definition catalog : list Product.doc :=
  [ doc id_a "Rice 1kg" (Some (PFloat (PyFloat.literal 999 2)));
    doc id_b "Salt" (Some (PFloat (PyFloat.literal 5 0)));
    doc id_c "Sample" (Some (PFloat (PyFloat.literal 125 3))) ].

Definition shop : World :=
  {| product := catalog; order := []; calls := [] |}.

Definition cart (l : list (string * Z)) : CheckoutRequest.t :=
  {| CheckoutRequest.customer_name := "Asha";
     CheckoutRequest.customer_email := "asha@example.com";
     CheckoutRequest.customer_address := "12 Lake Road";
     CheckoutRequest.items :=
       map (fun '(p, q) => {| CartItem.product_id := p;
                              CartItem.quantity := q |}) l |}.

End Examples.

(** ** The catalog endpoints *)

(** The values of a document, as far as [str()] tells them apart. *)
Inductive value : Type :=
| VObjectId (oid : ObjectId.t)
| VStr (s : string)
| VOpaque (shown : string).
  (* any other value, given by the text str() makes of it *)

(** [str(v)] *)
Definition py_str (v : value) : string :=
  match v with
  | VObjectId oid => ObjectId.str oid
  | VStr s => s
  | VOpaque shown => shown
  end.

(** The body of the loop of [list_products]:
    [d["id"] = str(d.pop("_id", ""))]. *)
Definition relabel (d : gmap string value) : gmap string value :=
  <["id" := VStr (py_str (default (VStr "") (d !! "_id")))]> (delete "_id" d).

(** [list_products], from what [get_documents("product")] does: the
    documents it returns, or the exception it raises. *)
Definition list_products (get_documents : error + list (gmap string value))
  : result (list (gmap string value)) :=
  match get_documents with
  | inr docs => Ok (relabel <$> docs)
  | inl e => Raise (HTTPException 500 (DetailStr e))
  end.

(** [add_product], from what [create_document("product", product)] does. *)
Definition add_product (created : error + string)
  : result (gmap string value) :=
  match created with
  | inr product_id => Ok {["id" := VStr product_id]}
  | inl e => Raise (HTTPException 500 (DetailStr e))
  end.

(** ** The database report *)

(** [s[:n]] *)
Definition first_chars (n : nat) (s : string) : string :=
  string_of_list_ascii (take n (list_ascii_of_string s)).

(** Truth value of what [os.getenv] or [getattr] gives: None and the empty
    text are false. *)
Definition truthy (o : option string) : bool :=
  match o with
  | Some s => negb (String.eqb s "")
  | None => false
  end.

Module Health.

(** The database handle [db], by what the two uses made of it give: an
    exception is written as the text [str(e)] of it. *)
Record handle : Type := {
  name : string + option string;
  list_collection_names : string + list string
}.

(** The dict [response]. *)
Record response : Type := {
  backend : string;
  database : string;
  database_url : option string;
  database_name : option string;
  connection_status : string;
  collections : list string
}.

Definition set_database (r : response) (v : string) : response :=
  {| backend := backend r; database := v; database_url := database_url r;
     database_name := database_name r;
     connection_status := connection_status r;
     collections := collections r |}.

Definition set_database_url (r : response) (v : option string) : response :=
  {| backend := backend r; database := database r; database_url := v;
     database_name := database_name r;
     connection_status := connection_status r;
     collections := collections r |}.

Definition set_database_name (r : response) (v : option string) : response :=
  {| backend := backend r; database := database r;
     database_url := database_url r; database_name := v;
     connection_status := connection_status r;
     collections := collections r |}.

Definition set_connection_status (r : response) (v : string) : response :=
  {| backend := backend r; database := database r;
     database_url := database_url r; database_name := database_name r;
     connection_status := v; collections := collections r |}.

Definition set_collections (r : response) (v : list string) : response :=
  {| backend := backend r; database := database r;
     database_url := database_url r; database_name := database_name r;
     connection_status := connection_status r; collections := v |}.

Definition initial : response :=
  {| backend := "✅ Running";
     database := "❌ Not Available";
     database_url := None;
     database_name := None;
     connection_status := "Not Connected";
     collections := [] |}.

(** [test_database], from the handle [db] (None when it is not initialised)
    and the value of the environment variable DATABASE_URL. *)
Definition test_database (db : option handle) (DATABASE_URL : option string)
  : response :=
  let response := initial in
  match db with
  | Some h =>
      let response := set_database response "✅ Available" in
      let response :=
        set_database_url response
          (Some (if truthy DATABASE_URL then "✅ Set" else "❌ Not Set")) in
      match name h with
      | inr n =>
          let response :=
            set_database_name response
              (Some (if truthy n then default "" n else "✅ Connected")) in
          let response := set_connection_status response "Connected" in
          match list_collection_names h with
          | inr collections =>
              let response := set_collections response (take 10 collections) in
              set_database response "✅ Connected & Working"
          | inl e =>
              set_database response ("⚠️  Connected but Error: " +:+ first_chars 50 e)
          end
      | inl e => set_database response ("❌ Error: " +:+ first_chars 50 e)
      end
  | None => set_database response "⚠️  Available but not initialized"
  end.

End Health.

(** ** Further concrete inputs *)

(** The same environment with another generated identifier. *)
Definition with_new_oid (env : Env) (seed : N) : Env :=
  {| find_raises := find_raises env;
     Order_raises := Order_raises env;
     create_raises := create_raises env;
     new_oid := seed;
     new_order_id := new_order_id env |}.

Definition document_a : gmap string value :=
  {[ "_id" := VObjectId (Examples.oid_of Examples.id_a);
     "title" := VStr "Rice 1kg";
     "price" := VOpaque "9.99" ]}.

Definition document_no_id : gmap string value :=
  {[ "title" := VStr "Loose item" ]}.

(** * Properties *)

(** ** The models of float, round and ObjectId at known values *)

Example tax_rate_bits : tax_rate = S754_finite false 7205759403792794 (-56).
Proof. reflexivity. Qed.

Example round2_tie_down : PyFloat.round2 (PyFloat.literal 125 3) = PyFloat.literal 12 2.
Proof. reflexivity. Qed.

Example round2_tie_up : PyFloat.round2 (PyFloat.literal 375 3) = PyFloat.literal 38 2.
Proof. reflexivity. Qed.

Example round2_below_tie : PyFloat.round2 (PyFloat.literal 2675 3) = PyFloat.literal 267 2.
Proof. reflexivity. Qed.

Example round2_negative_zero :
  PyFloat.round2 (S754_finite true 1 (-10)) = S754_zero true.
Proof. reflexivity. Qed.

Example sum_not_exact :
  PyFloat.add (PyFloat.literal 1 1) (PyFloat.literal 2 1) <> PyFloat.literal 3 1
  /\ PyFloat.round2 (PyFloat.add (PyFloat.literal 1 1) (PyFloat.literal 2 1))
     = PyFloat.literal 3 1.
Proof. split; [by vm_compute|reflexivity]. Qed.

Example of_int_overflow :
  PyFloat.of_int (2 ^ 1024) = None
  /\ PyFloat.of_int (2 ^ 1024 - 2 ^ 970 - 1)
     = Some (S754_finite false 9007199254740991 971).
Proof. split; by vm_compute. Qed.

Example of_str_upper_case :
  ObjectId.of_str "64B7F0C2A1B2C3D4E5F60718" = Ok (Examples.oid_of Examples.id_a)
  /\ ObjectId.str (Examples.oid_of Examples.id_a) = Examples.id_a.
Proof. split; reflexivity. Qed.

Example of_str_short : ObjectId.of_str "abc" = Raise (Raised (InvalidId "abc")).
Proof. reflexivity. Qed.

(** ** Every run follows one of the paths *)

Lemma checkout_run env payload w : run_spec env payload w (checkout env payload w).
Proof.
  unfold checkout, try_except, checkout_body.
  cbn [bind M_monad]. unfold lift.
  fold (parse_ids payload).
  destruct (parse_ids payload) as [ids|e] eqn:Hids.
  2:{ by apply run_bad_id. }
  unfold find. cbn [bind M_monad]. unfold log.
  destruct (find_raises env) as [e|] eqn:Hfind.
  { unfold raise. cbn. by eapply run_find_raises. }
  cbn [product calls order].
  change (filter _ (product w)) with (found w ids).
  destruct (size (build_product_map (found w ids)) =? length ids)%nat eqn:Hsize.
  2:{ cbn. apply Nat.eqb_neq in Hsize. by apply run_not_found. }
  apply Nat.eqb_eq in Hsize. cbn [negb].
  destruct (price_lines _ _ _ _) as [[line_items subtotal]|e] eqn:Hloop.
  2:{ by eapply run_loop_raises. }
  cbn [fst snd]. unfold Order_new.
  match goal with |- context [Order_raises env ?o] => change o with (order_of env payload line_items subtotal) end.
  destruct (Order_raises env _) as [e|] eqn:Hord.
  { unfold raise. by eapply run_order_raises. }
  cbn [ret M_monad]. unfold create_document, log. cbn [bind M_monad].
  destruct (create_raises env) as [e|] eqn:Hcr.
  { unfold raise. cbn [product order calls]. rewrite <- app_assoc.
    by eapply run_create_raises. }
  cbn [product order calls]. rewrite <- app_assoc.
  by apply (run_ok env payload w ids line_items subtotal).
Qed.

Ltac run_cases env payload w :=
  destruct (checkout_run env payload w)
    as [err He1|ids' err He1 He2|ids' He1 He2 He3|ids' err He1 He2 He3 He4
       |ids' lis' s' err He1 He2 He3 He4 He5
       |ids' lis' s' err He1 He2 He3 He4 He5 He6
       |ids' lis' s' He1 He2 He3 He4 He5 He6].

(** ** The loop over the cart *)

Lemma line_item_Ok prod item li :
  line_item prod item = Ok li ->
  exists u q,
    py_float (default (PInt 0) (Product.price prod)) = Ok u /\
    PyFloat.of_int (CartItem.quantity item) = Some q /\
    li = {| LineItem.product_id := CartItem.product_id item;
            LineItem.title := Product.title prod;
            LineItem.quantity := CartItem.quantity item;
            LineItem.unit_price := u;
            LineItem.line_total := PyFloat.mul u q |}.
Proof.
  unfold line_item, mul_int. intros H.
  destruct (py_float _) as [u|] eqn:Hu; [|discriminate].
  cbn in H.
  destruct (PyFloat.of_int _) as [q|] eqn:Hq; [|discriminate].
  cbn in H. injection H as <-. by exists u, q.
Qed.

Lemma price_line_Ok pm item li :
  price_line pm item = Ok li ->
  exists prod u q,
    pm !! CartItem.product_id item = Some prod /\
    py_float (default (PInt 0) (Product.price prod)) = Ok u /\
    PyFloat.of_int (CartItem.quantity item) = Some q /\
    li = {| LineItem.product_id := CartItem.product_id item;
            LineItem.title := Product.title prod;
            LineItem.quantity := CartItem.quantity item;
            LineItem.unit_price := u;
            LineItem.line_total := PyFloat.mul u q |}.
Proof.
  unfold price_line. intros H.
  destruct (pm !! CartItem.product_id item) as [prod|]; [|discriminate].
  apply line_item_Ok in H as (u & q & ? & ? & ?). by exists prod, u, q.
Qed.

Lemma price_lines_Ok pm items acc s lis s' :
  price_lines pm items acc s = Ok (lis, s') ->
  exists new,
    lis = acc ++ new /\
    Forall2 (fun item li => price_line pm item = Ok li) items new /\
    s' = foldl PyFloat.add s (LineItem.line_total <$> new).
Proof.
  revert acc s. induction items as [|item rest IH]; intros acc s H.
  - injection H as <- <-. exists []. by rewrite app_nil_r.
  - cbn in H. destruct (price_line pm item) as [li|] eqn:Hli; [|discriminate].
    apply IH in H as (new & -> & Hall & ->).
    exists (li :: new). rewrite <- app_assoc. split; [done|].
    split; [by constructor|done].
Qed.

Lemma build_product_map_lookup_gen (l : list Product.doc) (m : gmap string Product.doc) k d :
  foldl (fun m p => <[ObjectId.str (Product._id p) := p]> m) m l !! k = Some d ->
  (d ∈ l /\ ObjectId.str (Product._id d) = k) \/ m !! k = Some d.
Proof.
  revert m. induction l as [|p l IH]; intros m H; [by right|].
  cbn in H. apply IH in H as [[Hin Hk]|H].
  - left. split; [by right|done].
  - destruct (decide (ObjectId.str (Product._id p) = k)) as [Heq|Hne].
    + rewrite <- Heq, lookup_insert_eq in H. injection H as <-.
      left. split; [by left|done].
    + rewrite lookup_insert_ne in H by done. by right.
Qed.

Lemma build_product_map_lookup l k d :
  build_product_map l !! k = Some d ->
  d ∈ l /\ ObjectId.str (Product._id d) = k.
Proof.
  intros H. apply build_product_map_lookup_gen in H as [H|H]; [done|].
  by rewrite lookup_empty in H.
Qed.

Lemma found_elem w ids d :
  d ∈ found w ids <-> d ∈ product w /\ Product._id d ∈ ids.
Proof.
  unfold found. rewrite list_elem_of_filter. tauto.
Qed.

Lemma checkout_Ok env payload w r w' :
  checkout env payload w = (Ok r, w') ->
  exists ids line_items subtotal,
    parse_ids payload = Ok ids /\
    find_raises env = None /\
    size (build_product_map (found w ids)) = length ids /\
    price_lines (build_product_map (found w ids))
      (CheckoutRequest.items payload) [] PyFloat.zero = Ok (line_items, subtotal) /\
    Order_raises env (order_of env payload line_items subtotal) = None /\
    create_raises env = None /\
    r = response_of env line_items subtotal /\
    w' = inserted
           (logged w [CallFind ids;
                      CallCreate (order_of env payload line_items subtotal)])
           (new_order_id env) (order_of env payload line_items subtotal).
Proof.
  intros H. pose proof (checkout_run env payload w) as Hrun.
  rewrite H in Hrun. inversion Hrun; subst.
  - destruct e; discriminate.
  - destruct e; discriminate.
  - exists ids, line_items, subtotal. done.
Qed.

(** ** Subtotal, tax and total *)

Lemma run_line_items env payload w r w' :
  checkout env payload w = (Ok r, w') ->
  let subtotal := PyFloat.sum (LineItem.line_total <$> Response.items r) in
  let tax := PyFloat.round2 (PyFloat.mul subtotal tax_rate) in
  (exists ids,
     Forall2 (fun item li =>
                price_line (build_product_map (found w ids)) item = Ok li)
       (CheckoutRequest.items payload) (Response.items r)) /\
  Response.subtotal r = PyFloat.round2 subtotal /\
  Response.tax r = tax /\
  Response.total r = PyFloat.round2 (PyFloat.add subtotal tax) /\
  order w' = order w ++
    [(Response.order_id r, order_of env payload (Response.items r) subtotal)].
Proof.
  intros H.
  apply checkout_Ok in H
    as (ids & lis & s & _ & _ & _ & Hloop & _ & _ & -> & ->).
  apply price_lines_Ok in Hloop as (new & -> & Hall & ->).
  cbn. repeat split; try done. by exists ids.
Qed.

(** C2, as the code has it: the subtotal of the result and of the persisted
    Order is the sum of the line totals, taken in input order, rounded to
    two decimal places; each line total is unit_price × quantity. *)
Theorem subtotal_is_rounded_sum env payload w r w' :
  checkout env payload w = (Ok r, w') ->
  Forall2 (fun item li =>
             LineItem.product_id li = CartItem.product_id item /\
             LineItem.quantity li = CartItem.quantity item /\
             mul_int (LineItem.unit_price li) (CartItem.quantity item)
               = Ok (LineItem.line_total li))
    (CheckoutRequest.items payload) (Response.items r) /\
  Response.subtotal r
    = PyFloat.round2 (PyFloat.sum (LineItem.line_total <$> Response.items r)) /\
  exists o,
    order w' = order w ++ [(Response.order_id r, o)] /\
    Order.items o = Response.items r /\
    Order.subtotal o = Response.subtotal r.
Proof.
  intros H.
  apply run_line_items in H as ([ids Hall] & Hsub & _ & _ & Hw).
  split; [|split].
  - eapply Forall2_impl; [exact Hall|]. intros item li Hli.
    apply price_line_Ok in Hli as (prod & u & q & _ & _ & Hq & ->). cbn.
    unfold mul_int. by rewrite Hq.
  - done.
  - eexists. split; [exact Hw|]. by rewrite Hsub.
Qed.

Lemma subtotal_is_rounded_sum_witness :
  exists r w',
    checkout Examples.healthy
      (Examples.cart [(Examples.id_a, 3); (Examples.id_b, 1)]) Examples.shop
      = (Ok r, w') /\
    Response.subtotal r
      = PyFloat.round2 (PyFloat.sum (LineItem.line_total <$> Response.items r)).
Proof.
  eexists _, _. split; [vm_compute; reflexivity|].
  eapply (subtotal_is_rounded_sum Examples.healthy
            (Examples.cart [(Examples.id_a, 3); (Examples.id_b, 1)])
            Examples.shop).
  vm_compute. reflexivity.
Defined.

(** C2 as stated fails: for a product priced 0.125 and a quantity of 1 the
    line totals sum to 0.125 and the subtotal returned is 0.12. *)
Lemma subtotal_not_plain_sum :
  exists r w',
    checkout Examples.healthy (Examples.cart [(Examples.id_c, 1)])
      Examples.shop = (Ok r, w') /\
    PyFloat.sum (LineItem.line_total <$> Response.items r)
      = PyFloat.literal 125 3 /\
    Response.subtotal r = PyFloat.literal 12 2 /\
    Response.subtotal r
      <> PyFloat.sum (LineItem.line_total <$> Response.items r).
Proof.
  eexists _, _. split; [vm_compute; reflexivity|].
  repeat split; try (vm_compute; reflexivity).
  vm_compute. discriminate.
Qed.

(** C3: on success the tax is round(subtotal × 0.10, 2) and the total is
    round(subtotal + tax, 2), for the unrounded sum of the line totals. *)
Theorem tax_and_total_of_subtotal env payload w r w' :
  checkout env payload w = (Ok r, w') ->
  let subtotal := PyFloat.sum (LineItem.line_total <$> Response.items r) in
  Response.tax r
    = PyFloat.round2 (PyFloat.mul subtotal (PyFloat.literal 10 2)) /\
  Response.total r = PyFloat.round2 (PyFloat.add subtotal (Response.tax r)).
Proof.
  intros H subtotal.
  apply run_line_items in H as (_ & _ & Htax & Htotal & _).
  replace (PyFloat.literal 10 2) with tax_rate by (by vm_compute).
  fold subtotal in Htax, Htotal. by rewrite Htotal, Htax.
Qed.

Lemma tax_and_total_of_subtotal_witness :
  exists r w',
    checkout Examples.healthy
      (Examples.cart [(Examples.id_a, 3); (Examples.id_b, 1)]) Examples.shop
      = (Ok r, w') /\
    Response.tax r
      = PyFloat.round2
          (PyFloat.mul (PyFloat.sum (LineItem.line_total <$> Response.items r))
             (PyFloat.literal 10 2)).
Proof.
  eexists _, _. split; [vm_compute; reflexivity|].
  eapply (tax_and_total_of_subtotal Examples.healthy
            (Examples.cart [(Examples.id_a, 3); (Examples.id_b, 1)])
            Examples.shop).
  vm_compute. reflexivity.
Defined.

(** ** Unit prices *)

(** C7: on success every line item carries the price of the product its
    cart item resolves to, coerced by float(), and 0 when the product
    record has no price. *)
Theorem unit_price_of_product env payload w r w' :
  checkout env payload w = (Ok r, w') ->
  Forall2 (fun item li =>
             LineItem.product_id li = CartItem.product_id item /\
             exists prod,
               prod ∈ product w /\
               ObjectId.str (Product._id prod) = CartItem.product_id item /\
               match Product.price prod with
               | Some v => py_float v = Ok (LineItem.unit_price li)
               | None => LineItem.unit_price li = PyFloat.zero
               end)
    (CheckoutRequest.items payload) (Response.items r).
Proof.
  intros H. apply run_line_items in H as ([ids Hall] & _).
  eapply Forall2_impl; [exact Hall|]. intros item li Hli.
  apply price_line_Ok in Hli as (prod & u & q & Hprod & Hu & _ & ->). cbn.
  split; [done|]. exists prod.
  apply build_product_map_lookup in Hprod as [Hin Hk].
  apply found_elem in Hin as [Hin _].
  repeat split; try done.
  destruct (Product.price prod); cbn in Hu; [done|].
  by injection Hu as <-.
Qed.

Lemma unit_price_of_product_witness :
  exists r w',
    checkout Examples.healthy
      (Examples.cart [(Examples.id_a, 3); (Examples.id_b, 1)]) Examples.shop
      = (Ok r, w') /\
    Forall2 (fun item li =>
               LineItem.product_id li = CartItem.product_id item /\
               exists prod,
                 prod ∈ Examples.catalog /\
                 ObjectId.str (Product._id prod) = CartItem.product_id item /\
                 match Product.price prod with
                 | Some v => py_float v = Ok (LineItem.unit_price li)
                 | None => LineItem.unit_price li = PyFloat.zero
                 end)
      (CheckoutRequest.items
         (Examples.cart [(Examples.id_a, 3); (Examples.id_b, 1)]))
      (Response.items r).
Proof.
  eexists _, _. split; [vm_compute; reflexivity|].
  eapply (unit_price_of_product Examples.healthy
            (Examples.cart [(Examples.id_a, 3); (Examples.id_b, 1)])
            Examples.shop).
  vm_compute. reflexivity.
Defined.

(** ** Strings and identifiers *)

Lemma length_list_ascii s :
  length (list_ascii_of_string s) = String.length s.
Proof. induction s as [|c s IH]; cbn; congruence. Qed.

Lemma list_ascii_append s1 s2 :
  list_ascii_of_string (s1 +:+ s2)
  = list_ascii_of_string s1 ++ list_ascii_of_string s2.
Proof.
  induction s1 as [|c s1 IH]; [done|].
  change (String c s1 +:+ s2) with (String c (s1 +:+ s2)).
  cbn. by rewrite IH.
Qed.

Lemma last_chars_append n p s :
  (n <= String.length s)%nat ->
  PyStr.last_chars n (p +:+ s) = PyStr.last_chars n s.
Proof.
  intros Hn. unfold PyStr.last_chars. f_equal.
  rewrite <- !length_list_ascii, !list_ascii_append, length_app.
  rewrite <- length_list_ascii in Hn.
  rewrite drop_app_ge by lia. f_equal. lia.
Qed.

Lemma length_last_chars n s :
  (n <= String.length s)%nat -> String.length (PyStr.last_chars n s) = n.
Proof.
  intros Hn. unfold PyStr.last_chars.
  rewrite <- length_list_ascii, list_ascii_of_string_of_list_ascii.
  rewrite length_drop, length_list_ascii. lia.
Qed.

Lemma length_hexlify bs :
  String.length (PyStr.hexlify bs) = (2 * length bs)%nat.
Proof. induction bs as [|b bs IH]; cbn; [done|]. rewrite IH. lia. Qed.

Lemma length_to_bytes_be len n : length (PyStr.to_bytes_be len n) = len.
Proof.
  revert n. induction len as [|len IH]; intros n; cbn; [done|].
  rewrite length_app, IH. cbn. lia.
Qed.

Lemma hexlify_lower_hex bs :
  Forall (fun c => is_lower_hex c = true)
    (list_ascii_of_string (PyStr.hexlify bs)).
Proof.
  induction bs as [|b bs IH]; cbn; [constructor|].
  constructor; [by destruct b|]. constructor; [by destruct b|done].
Qed.

Lemma fromhex_hexlify bs : PyStr.fromhex (PyStr.hexlify bs) = Some bs.
Proof.
  induction bs as [|b bs IH]; [done|].
  cbn [PyStr.hexlify PyStr.fromhex]. rewrite IH.
  by destruct b.
Qed.

#[global] Instance hexlify_inj : Inj (=) (=) PyStr.hexlify.
Proof.
  intros bs1 bs2 H. apply (f_equal PyStr.fromhex) in H.
  rewrite !fromhex_hexlify in H. by injection H.
Qed.

Lemma of_str_str oid :
  length oid = 12%nat -> ObjectId.of_str (ObjectId.str oid) = Ok oid.
Proof.
  intros Hlen. unfold ObjectId.of_str, ObjectId.str.
  rewrite length_hexlify, Hlen. cbn [Nat.mul Nat.add Nat.eqb].
  by rewrite fromhex_hexlify.
Qed.

Lemma prefix_INV_lower_hex s :
  Forall (fun c => is_lower_hex c = true) (list_ascii_of_string s) ->
  String.prefix "INV-" s = false.
Proof.
  destruct s as [|c s]; [done|]. cbn [list_ascii_of_string String.prefix].
  intros H. apply Forall_cons_1 in H as [Hc _].
  destruct (ascii_dec "I" c) as [<-|]; [discriminate|done].
Qed.

Lemma invoice_number_of_generated seed :
  let uid := ObjectId.str (ObjectId.generate seed) in
  String.length uid = 24%nat /\
  invoice_number_of (ObjectId.generate seed) = PyStr.last_chars 8 uid /\
  String.length (invoice_number_of (ObjectId.generate seed)) = 8%nat /\
  Forall (fun c => is_lower_hex c = true)
    (list_ascii_of_string (invoice_number_of (ObjectId.generate seed))).
Proof.
  intros uid.
  assert (Hlen : String.length uid = 24%nat).
  { unfold uid, ObjectId.str, ObjectId.generate.
    by rewrite length_hexlify, length_to_bytes_be. }
  assert (Heq : invoice_number_of (ObjectId.generate seed)
                = PyStr.last_chars 8 uid).
  { unfold invoice_number_of. fold uid. apply last_chars_append. lia. }
  split; [done|]. split; [done|]. rewrite Heq. split.
  - apply length_last_chars. lia.
  - unfold PyStr.last_chars. rewrite list_ascii_of_string_of_list_ascii.
    apply Forall_drop, hexlify_lower_hex.
Qed.

(** For an arbitrary text the prefix disappears only from 8 characters on;
    an identifier of 4 characters, which [ObjectId.generate] never yields,
    would keep it. *)
Example last_chars_short_text :
  PyStr.last_chars 8 ("INV-" +:+ "abcd") = "INV-abcd".
Proof. reflexivity. Qed.

(** C6: on success the invoice number is the last 8 characters of "INV-"
    followed by the generated identifier; that identifier has 24
    characters, hence at least 4, so the invoice number is the last 8
    characters of the identifier itself and shows no "INV-" prefix. *)
Theorem invoice_number_is_id_tail env payload w r w' :
  checkout env payload w = (Ok r, w') ->
  let uid := ObjectId.str (ObjectId.generate (new_oid env)) in
  Response.invoice_number r = PyStr.last_chars 8 ("INV-" +:+ uid) /\
  (4 <= String.length uid)%nat /\
  Response.invoice_number r = PyStr.last_chars 8 uid /\
  String.prefix "INV-" (Response.invoice_number r) = false.
Proof.
  intros H uid.
  apply checkout_Ok in H as (ids & lis & s & _ & _ & _ & _ & _ & _ & -> & _).
  cbn [response_of Response.invoice_number].
  destruct (invoice_number_of_generated (new_oid env))
    as (Hlen & Heq & _ & Hhex).
  fold uid in Hlen, Heq.
  split; [done|]. split; [lia|]. split; [done|].
  by apply prefix_INV_lower_hex.
Qed.

Lemma invoice_number_is_id_tail_witness :
  exists r w',
    checkout Examples.healthy
      (Examples.cart [(Examples.id_a, 3); (Examples.id_b, 1)]) Examples.shop
      = (Ok r, w') /\
    Response.invoice_number r
      = PyStr.last_chars 8
          (ObjectId.str (ObjectId.generate (new_oid Examples.healthy))).
Proof.
  eexists _, _. split; [vm_compute; reflexivity|].
  eapply (invoice_number_is_id_tail Examples.healthy
            (Examples.cart [(Examples.id_a, 3); (Examples.id_b, 1)])
            Examples.shop).
  vm_compute. reflexivity.
Defined.

(** ** The product map *)

Lemma product_map_dom_gen (l : list Product.doc) (m : gmap string Product.doc) :
  dom (foldl (fun m p => <[ObjectId.str (Product._id p) := p]> m) m l)
  = dom m ∪ list_to_set ((fun p => ObjectId.str (Product._id p)) <$> l).
Proof.
  revert m. induction l as [|p l IH]; intros m; cbn.
  - by rewrite (right_id_L ∅ (∪)).
  - rewrite IH, dom_insert_L.
    by rewrite (comm_L (∪) {[_]} (dom m)), (assoc_L (∪)).
Qed.

Lemma product_map_dom l :
  dom (build_product_map l)
  = list_to_set ((fun p => ObjectId.str (Product._id p)) <$> l).
Proof.
  unfold build_product_map.
  by rewrite product_map_dom_gen, dom_empty_L, (left_id_L ∅ (∪)).
Qed.

Lemma size_list_to_set_le (l : list string) :
  (size (list_to_set l : gset string) <= length l)%nat.
Proof.
  induction l as [|x l IH]; cbn; [by rewrite size_empty|].
  rewrite size_union_alt, size_singleton.
  assert (size (list_to_set l ∖ {[x]} : gset string)
          <= size (list_to_set l : gset string))%nat
    by (apply subseteq_size, subseteq_difference_l; reflexivity).
  lia.
Qed.

Lemma product_map_lookup_notin_gen (l : list Product.doc) (m : gmap string Product.doc) k :
  k ∉ (fun p => ObjectId.str (Product._id p)) <$> l ->
  foldl (fun m p => <[ObjectId.str (Product._id p) := p]> m) m l !! k = m !! k.
Proof.
  revert m. induction l as [|p l IH]; intros m Hk; [done|].
  cbn in *. apply not_elem_of_cons in Hk as [Hne Hk].
  rewrite IH by done. by rewrite lookup_insert_ne.
Qed.

Lemma product_map_lookup_in l d :
  NoDup ((fun p => ObjectId.str (Product._id p)) <$> l) ->
  d ∈ l ->
  build_product_map l !! ObjectId.str (Product._id d) = Some d.
Proof.
  unfold build_product_map. generalize (∅ : gmap string Product.doc).
  induction l as [|p l IH]; intros m Hnd Hin; [by apply elem_of_nil in Hin|].
  cbn in *. apply NoDup_cons in Hnd as [Hp Hnd].
  apply elem_of_cons in Hin as [->|Hin].
  - rewrite product_map_lookup_notin_gen by done. apply lookup_insert_eq.
  - by apply IH.
Qed.

Lemma size_product_map_NoDup l :
  NoDup ((fun p => ObjectId.str (Product._id p)) <$> l) ->
  size (build_product_map l) = length l.
Proof.
  intros Hnd. rewrite <- size_dom, product_map_dom.
  rewrite size_list_to_set by done. by rewrite length_fmap.
Qed.

(** A reference absent from the collection leaves the map smaller than the
    list of requested identifiers. *)
Lemma size_product_map_unresolved w ids u :
  u ∈ ids ->
  u ∉ Product._id <$> product w ->
  (size (build_product_map (found w ids)) < length ids)%nat.
Proof.
  intros Hu Hnot.
  set (hit := filter (fun o => o ∈ Product._id <$> product w) ids).
  assert (Hlt : (length hit < length ids)%nat).
  { by apply (length_filter_lt _ _ u). }
  assert (Hsub : dom (build_product_map (found w ids))
                 ⊆ list_to_set (ObjectId.str <$> hit)).
  { rewrite product_map_dom. intros k Hk.
    apply elem_of_list_to_set, list_elem_of_fmap in Hk as (d & -> & Hd).
    apply found_elem in Hd as [Hd Hid].
    apply elem_of_list_to_set, list_elem_of_fmap. exists (Product._id d).
    split; [done|]. apply list_elem_of_filter. split; [|done].
    apply list_elem_of_fmap. by exists d. }
  apply subseteq_size in Hsub. rewrite size_dom in Hsub.
  pose proof (size_list_to_set_le (ObjectId.str <$> hit)) as Hle.
  rewrite length_fmap in Hle. lia.
Qed.

(** ** Carts that go through *)

Lemma comprehension_Ok {A B} (f : A -> result B) l bs :
  comprehension f l = Ok bs <-> Forall2 (fun a b => f a = Ok b) l bs.
Proof.
  revert bs. induction l as [|a l IH]; intros bs; cbn.
  - split; [intros [= <-]; constructor|by inversion 1].
  - destruct (f a) as [b|e] eqn:Hb.
    + destruct (comprehension f l) as [bs'|e] eqn:Hbs; cbn.
      * split.
        -- intros [= <-]. constructor; [done|by apply IH].
        -- inversion 1 as [|? b' ? bs'' Hb' Hbs'']; subst.
           apply IH in Hbs''. congruence.
      * split; [done|]. inversion 1 as [|? b' ? bs'' Hb' Hbs'']; subst.
        apply IH in Hbs''. congruence.
    + split; [done|]. inversion 1; congruence.
Qed.

Lemma price_lines_all pm items acc s lis :
  Forall2 (fun item li => price_line pm item = Ok li) items lis ->
  price_lines pm items acc s
  = Ok (acc ++ lis, foldl PyFloat.add s (LineItem.line_total <$> lis)).
Proof.
  intros H. revert acc s.
  induction H as [|item li items lis Hli _ IH]; intros acc s; cbn.
  - by rewrite app_nil_r.
  - rewrite Hli. cbn. rewrite IH. by rewrite <- app_assoc.
Qed.

(** A cart goes through when no product is listed twice, every reference
    is the text of the identifier of a product in the collection, every
    line can be priced, and no collaborator fails. *)
Lemma checkout_succeeds env payload w lis :
  Forall2 (fun item li =>
             exists d,
               d ∈ product w /\
               length (Product._id d) = 12%nat /\
               CartItem.product_id item = ObjectId.str (Product._id d) /\
               line_item d item = Ok li)
    (CheckoutRequest.items payload) lis ->
  NoDup (CartItem.product_id <$> CheckoutRequest.items payload) ->
  NoDup (Product._id <$> product w) ->
  find_raises env = None ->
  Order_raises env
    (order_of env payload lis (PyFloat.sum (LineItem.line_total <$> lis)))
    = None ->
  create_raises env = None ->
  exists w',
    checkout env payload w
    = (Ok (response_of env lis (PyFloat.sum (LineItem.line_total <$> lis))), w') /\
    order w' = order w ++
      [(new_order_id env,
        order_of env payload lis (PyFloat.sum (LineItem.line_total <$> lis)))].
Proof.
  intros Hall Hdup Huniq Hfind Hord Hcreate.
  set (items := CheckoutRequest.items payload) in *.
  (* the documents the items resolve to *)
  assert (exists ds,
            Forall2 (fun item d =>
                       length (Product._id d) = 12%nat /\
                       CartItem.product_id item = ObjectId.str (Product._id d))
              items ds /\
            Forall (fun d => d ∈ product w) ds /\
            Forall2 (fun item li =>
                       exists d, d ∈ ds /\
                         CartItem.product_id item = ObjectId.str (Product._id d) /\
                         line_item d item = Ok li) items lis)
    as (ds & Hds & Hcat & Hlines).
  { clear Hdup Hord.
    induction Hall as [|item li its lis' (d & ? & ? & ? & ?) _ (ds & ? & ? & ?)].
    - exists []. repeat split; constructor.
    - exists (d :: ds). repeat split; constructor; try done.
      + exists d. split; [by left|done].
      + eapply Forall2_impl; [done|]. intros it li' (d' & ? & ?). exists d'.
        split; [by right|done]. }
  set (ids := Product._id <$> ds).
  assert (Hparse : parse_ids payload = Ok ids).
  { apply comprehension_Ok. fold items. unfold ids.
    apply Forall2_fmap_r. eapply Forall2_impl; [exact Hds|].
    intros item d (Hlen & ->). by apply of_str_str. }
  assert (Hpids : CartItem.product_id <$> items = ObjectId.str <$> ids).
  { unfold ids. rewrite <- list_fmap_compose.
    clear -Hds. induction Hds as [|item d its ds' (_ & ?)]; cbn; congruence. }
  assert (Hnd : NoDup ids).
  { apply (NoDup_fmap_1 ObjectId.str). by rewrite <- Hpids. }
  assert (Hin : forall d, d ∈ ds -> d ∈ found w ids).
  { intros d Hd. apply found_elem. split.
    - by eapply Forall_forall in Hcat.
    - apply list_elem_of_fmap. by exists d. }
  assert (Hfnd : NoDup (Product._id <$> found w ids)).
  { eapply sublist_NoDup; [exact Huniq|].
    apply fmap_sublist, sublist_filter. }
  assert (Hkeys : NoDup ((fun p => ObjectId.str (Product._id p)) <$> found w ids)).
  { rewrite (list_fmap_compose Product._id ObjectId.str).
    by apply (NoDup_fmap_2 ObjectId.str). }
  assert (Hsize : size (build_product_map (found w ids)) = length ids).
  { rewrite size_product_map_NoDup by done.
    rewrite <- (length_fmap Product._id). apply Permutation_length.
    apply NoDup_Permutation; [done|done|]. intros o. split.
    - intros (d & -> & Hd)%list_elem_of_fmap. by apply found_elem in Hd as [_ ?].
    - intros (d & -> & Hd)%list_elem_of_fmap. apply list_elem_of_fmap.
      exists d. split; [done|by apply Hin]. }
  assert (Hloop : price_lines (build_product_map (found w ids)) items []
                    PyFloat.zero
                  = Ok (lis, PyFloat.sum (LineItem.line_total <$> lis))).
  { rewrite (price_lines_all _ _ _ _ lis); [done|].
    eapply Forall2_impl; [exact Hlines|]. intros item li (d & Hd & Hpid & Hli).
    unfold price_line. rewrite Hpid, product_map_lookup_in; auto. }
  run_cases env payload w; try congruence;
    rewrite Hparse in He1; injection He1 as <-; try congruence;
    fold items in He4; rewrite Hloop in He4; try discriminate;
    injection He4 as <- <-; try congruence.
  eexists. split; [reflexivity|done].
Qed.

(** ** Particular carts *)

(** C8: a cart of two items, for products priced 9.99 and 5.00 and
    quantities 3 and 1, goes through with subtotal 34.97, tax 3.50 and
    total 38.47. *)
Theorem example_cart_totals env payload w item1 item2 d1 d2 :
  CheckoutRequest.items payload = [item1; item2] ->
  CartItem.quantity item1 = 3 ->
  CartItem.quantity item2 = 1 ->
  d1 ∈ product w ->
  d2 ∈ product w ->
  length (Product._id d1) = 12%nat ->
  length (Product._id d2) = 12%nat ->
  CartItem.product_id item1 = ObjectId.str (Product._id d1) ->
  CartItem.product_id item2 = ObjectId.str (Product._id d2) ->
  CartItem.product_id item1 <> CartItem.product_id item2 ->
  Product.price d1 = Some (PFloat (PyFloat.literal 999 2)) ->
  Product.price d2 = Some (PFloat (PyFloat.literal 500 2)) ->
  NoDup (Product._id <$> product w) ->
  find_raises env = None ->
  (forall o, Order_raises env o = None) ->
  create_raises env = None ->
  exists r w',
    checkout env payload w = (Ok r, w') /\
    Response.subtotal r = PyFloat.literal 3497 2 /\
    Response.tax r = PyFloat.literal 350 2 /\
    Response.total r = PyFloat.literal 3847 2.
Proof.
  intros Hitems Hq1 Hq2 Hd1 Hd2 Hl1 Hl2 Hp1 Hp2 Hne Hpr1 Hpr2 Huniq Hfind
    Hord Hcreate.
  set (u1 := PyFloat.literal 999 2). set (u2 := PyFloat.literal 500 2).
  set (lis :=
         [ {| LineItem.product_id := CartItem.product_id item1;
              LineItem.title := Product.title d1;
              LineItem.quantity := 3;
              LineItem.unit_price := u1;
              LineItem.line_total := PyFloat.mul u1 (PyFloat.literal 3 0) |};
           {| LineItem.product_id := CartItem.product_id item2;
              LineItem.title := Product.title d2;
              LineItem.quantity := 1;
              LineItem.unit_price := u2;
              LineItem.line_total := PyFloat.mul u2 (PyFloat.literal 1 0) |} ]).
  destruct (checkout_succeeds env payload w lis) as (w' & Hrun & _); try done.
  - rewrite Hitems. constructor; [|constructor; [|constructor]].
    + exists d1. repeat split; try done.
      unfold line_item. rewrite Hpr1, Hq1. reflexivity.
    + exists d2. repeat split; try done.
      unfold line_item. rewrite Hpr2, Hq2. reflexivity.
  - rewrite Hitems. cbn. apply NoDup_cons. split.
    + by intros Hin%list_elem_of_singleton.
    + apply NoDup_singleton.
  - eexists _, w'. split; [exact Hrun|].
    cbn [response_of Response.subtotal Response.tax Response.total lis
         fmap list_fmap LineItem.line_total].
    repeat split; vm_compute; reflexivity.
Qed.

Lemma found_nil w : found w [] = [].
Proof.
  unfold found. induction (product w) as [|d l IH]; [done|].
  rewrite filter_cons. destruct (decide _) as [H|_]; [|done].
  by apply elem_of_nil in H.
Qed.

(** C9: an empty cart goes through: all three amounts are 0.0, there are
    no line items, the invoice number is made from a fresh identifier and
    one Order document is persisted. *)
Theorem empty_cart_accepted env payload w :
  CheckoutRequest.items payload = [] ->
  find_raises env = None ->
  (forall o, Order_raises env o = None) ->
  create_raises env = None ->
  exists r w' o,
    checkout env payload w = (Ok r, w') /\
    Response.subtotal r = PyFloat.zero /\
    Response.tax r = PyFloat.zero /\
    Response.total r = PyFloat.zero /\
    Response.items r = [] /\
    Response.invoice_number r
      = invoice_number_of (ObjectId.generate (new_oid env)) /\
    order w' = order w ++ [(Response.order_id r, o)] /\
    Order.items o = [] /\
    Order.subtotal o = PyFloat.zero /\
    Order.total o = PyFloat.zero.
Proof.
  intros Hitems Hfind Hord Hcreate.
  run_cases env payload w; unfold parse_ids in *; rewrite Hitems in *; cbn in *; try congruence.
  - injection He1 as <-. by rewrite found_nil in He3.
  - injection He4 as <- <-. eexists _, _, _. split; [reflexivity|].
    cbn. by repeat split.
Qed.

(** C10: a cart item whose quantity is zero or negative is priced like any
    other: the cart goes through, the line total is unit_price × quantity
    and it is part of the subtotal, the tax and the total. *)
Theorem nonpositive_quantity_priced env payload w i item :
  Forall (fun item =>
            exists d,
              d ∈ product w /\
              length (Product._id d) = 12%nat /\
              CartItem.product_id item = ObjectId.str (Product._id d) /\
              (exists u, py_float (default (PInt 0) (Product.price d)) = Ok u) /\
              is_Some (PyFloat.of_int (CartItem.quantity item)))
    (CheckoutRequest.items payload) ->
  NoDup (CartItem.product_id <$> CheckoutRequest.items payload) ->
  NoDup (Product._id <$> product w) ->
  find_raises env = None ->
  (forall o, Order_raises env o = None) ->
  create_raises env = None ->
  CheckoutRequest.items payload !! i = Some item ->
  CartItem.quantity item <= 0 ->
  exists r w' li,
    checkout env payload w = (Ok r, w') /\
    Response.items r !! i = Some li /\
    LineItem.quantity li = CartItem.quantity item /\
    mul_int (LineItem.unit_price li) (CartItem.quantity item)
      = Ok (LineItem.line_total li) /\
    let subtotal := PyFloat.sum (LineItem.line_total <$> Response.items r) in
    Response.subtotal r = PyFloat.round2 subtotal /\
    Response.tax r = PyFloat.round2 (PyFloat.mul subtotal tax_rate) /\
    Response.total r = PyFloat.round2 (PyFloat.add subtotal (Response.tax r)).
Proof.
  intros Hall Hdup Huniq Hfind Hord Hcreate Hi Hq.
  assert (exists lis,
            Forall2 (fun item li =>
                       exists d,
                         d ∈ product w /\
                         length (Product._id d) = 12%nat /\
                         CartItem.product_id item = ObjectId.str (Product._id d) /\
                         line_item d item = Ok li)
              (CheckoutRequest.items payload) lis) as [lis Hlis].
  { clear -Hall.
    induction Hall as [|it its (d & ? & ? & ? & [u Hu] & [q Hq]) _ [lis ?]].
    - exists []. constructor.
    - eexists (_ :: lis). constructor; [|done].
      exists d. repeat split; try done.
      unfold line_item, mul_int. rewrite Hu. cbn. rewrite Hq. reflexivity. }
  destruct (checkout_succeeds env payload w lis) as (w' & Hrun & _); try done.
  destruct (Forall2_lookup_l _ _ _ _ _ Hlis Hi) as (li & Hli & d & _ & _ & _ & Hline).
  exists (response_of env lis (PyFloat.sum (LineItem.line_total <$> lis))), w', li.
  split; [done|]. split; [done|].
  apply line_item_Ok in Hline as (u & q & _ & Hof & ->). cbn.
  unfold mul_int. rewrite Hof. done.
Qed.


(** ** Failures *)

(** C1 at a cart that lists one product of the collection twice: every
    requested reference resolves, and checkout raises the "products not
    found" error all the same. *)
Theorem duplicate_reference_rejected :
  let payload := Examples.cart [(Examples.id_a, 1); (Examples.id_a, 2)] in
  (forall item, item ∈ CheckoutRequest.items payload ->
     exists d, d ∈ product Examples.shop /\
       ObjectId.of_str (CartItem.product_id item) = Ok (Product._id d)) /\
  checkout Examples.healthy payload Examples.shop
  = (Raise not_found,
     logged Examples.shop
       [CallFind [Examples.oid_of Examples.id_a;
                  Examples.oid_of Examples.id_a]]).
Proof.
  split; [|by vm_compute].
  intros item Hin. exists (Examples.doc Examples.id_a "Rice 1kg"
                            (Some (PFloat (PyFloat.literal 999 2)))).
  split; [by left|].
  cbn in Hin. apply elem_of_cons in Hin as [->|Hin]; [by vm_compute|].
  apply list_elem_of_singleton in Hin as ->. by vm_compute.
Qed.

Lemma of_str_Raise s e :
  ObjectId.of_str s = Raise e -> e = Raised (InvalidId s).
Proof.
  unfold ObjectId.of_str. destruct (_ =? _)%nat; [|congruence].
  destruct (PyStr.fromhex s); congruence.
Qed.

Lemma parse_ids_Raise payload e :
  parse_ids payload = Raise e ->
  exists item,
    item ∈ CheckoutRequest.items payload /\
    e = Raised (InvalidId (CartItem.product_id item)).
Proof.
  unfold parse_ids. induction (CheckoutRequest.items payload) as [|a l IH]; cbn.
  - discriminate.
  - destruct (ObjectId.of_str _) as [b|e'] eqn:Hb.
    + destruct (comprehension _ l) as [bs|e'']; cbn; [discriminate|].
      intros [= ->]. destruct IH as (item & ? & ?); [done|].
      exists item. split; [by right|done].
    + intros [= ->]. exists a. split; [by left|by apply of_str_Raise in Hb].
Qed.

Lemma parse_ids_malformed payload item e :
  item ∈ CheckoutRequest.items payload ->
  ObjectId.of_str (CartItem.product_id item) = Raise e ->
  exists e', parse_ids payload = Raise e'.
Proof.
  intros Hin He. destruct (parse_ids payload) as [ids|e'] eqn:Hp; [|by eexists].
  apply comprehension_Ok in Hp.
  apply list_elem_of_lookup in Hin as [i Hi].
  destruct (Forall2_lookup_l _ _ _ _ _ Hp Hi) as (o & _ & Ho). congruence.
Qed.

Lemma parse_ids_elem payload ids item u :
  parse_ids payload = Ok ids ->
  item ∈ CheckoutRequest.items payload ->
  ObjectId.of_str (CartItem.product_id item) = Ok u ->
  u ∈ ids.
Proof.
  intros Hp Hin Hu. apply comprehension_Ok in Hp.
  apply list_elem_of_lookup in Hin as [i Hi].
  destruct (Forall2_lookup_l _ _ _ _ _ Hp Hi) as (o & Ho & Hou).
  rewrite Hu in Hou. injection Hou as <-. by eapply list_elem_of_lookup_2.
Qed.

Lemma py_float_Raise v e : py_float v = Raise e -> exists e', e = Raised e'.
Proof.
  destruct v as [f|z| |[f|]]; cbn; try discriminate;
    try (intros [= <-]; by eexists).
  destruct (PyFloat.of_int z); [discriminate|]. intros [= <-]. by eexists.
Qed.

Lemma price_line_Raise pm item e :
  price_line pm item = Raise e -> exists e', e = Raised e'.
Proof.
  unfold price_line, line_item, mul_int.
  destruct (pm !! _) as [prod|]; [|intros [= <-]; by eexists].
  destruct (py_float _) as [u|e0] eqn:Hu; cbn.
  - destruct (PyFloat.of_int _); cbn; [discriminate|]. intros [= <-]. by eexists.
  - intros [= <-]. by eapply py_float_Raise.
Qed.

Lemma price_lines_Raise pm items acc s e :
  price_lines pm items acc s = Raise e -> exists e', e = Raised e'.
Proof.
  revert acc s. induction items as [|item rest IH]; intros acc s; cbn.
  - discriminate.
  - destruct (price_line pm item) as [li|e0] eqn:Hli; cbn.
    + apply IH.
    + intros [= <-]. by eapply price_line_Raise.
Qed.

(** C4, as the code has it.  With every reference well formed and the
    lookup working, a reference that is in no product document gives the
    400 "One or more products not found"; a malformed reference gives a
    500; so does a failing lookup and a failing create_document.  A failure
    is always one of the two, and each collaborator is called at most
    once. *)
Theorem failure_outcomes env payload w :
  (forall ids item u,
     parse_ids payload = Ok ids ->
     find_raises env = None ->
     item ∈ CheckoutRequest.items payload ->
     ObjectId.of_str (CartItem.product_id item) = Ok u ->
     u ∉ Product._id <$> product w ->
     checkout env payload w = (Raise not_found, logged w [CallFind ids])) /\
  (forall item e,
     item ∈ CheckoutRequest.items payload ->
     ObjectId.of_str (CartItem.product_id item) = Raise e ->
     exists x, checkout env payload w = (Raise x, w) /\ server_error x) /\
  (forall ids e,
     parse_ids payload = Ok ids ->
     find_raises env = Some e ->
     checkout env payload w
     = (Raise (HTTPException 500 (DetailStr e)), logged w [CallFind ids])) /\
  (forall e r w0,
     checkout (with_create_raises env None) payload w = (Ok r, w0) ->
     exists w',
       checkout (with_create_raises env (Some e)) payload w
       = (Raise (HTTPException 500 (DetailStr e)), w') /\
       order w' = order w) /\
  (forall x w',
     checkout env payload w = (Raise x, w') ->
     x = not_found \/ server_error x) /\
  (exists cs,
     calls (checkout env payload w).2 = calls w ++ cs /\
     (cs = [] \/ (exists ids, cs = [CallFind ids]) \/
      exists ids o, cs = [CallFind ids; CallCreate o])).
Proof.
  split; [|split; [|split; [|split; [|split]]]].
  - intros ids item u Hp Hfind Hin Hu Hnot.
    pose proof (size_product_map_unresolved w ids u
                  (parse_ids_elem _ _ _ _ Hp Hin Hu) Hnot) as Hlt.
    run_cases env payload w; try congruence;
      rewrite Hp in He1; injection He1 as <-; try done; lia.
  - intros item e Hin He.
    destruct (parse_ids_malformed _ _ _ Hin He) as [e' He'].
    run_cases env payload w; try congruence.
    apply parse_ids_Raise in He1 as (it & _ & ->). cbn.
    eexists. split; [reflexivity|by eexists].
  - intros ids e Hp Hfind.
    run_cases env payload w; congruence.
  - intros e r w0 Hok.
    apply checkout_Ok in Hok
      as (ids & lis & s & Hp & Hfind & Hsize & Hloop & Hord & _ & _ & _).
    cbn in Hfind, Hord.
    run_cases (with_create_raises env (Some e)) payload w;
      change (order_of (with_create_raises env ?f)) with (order_of env) in *;
      cbn in *; try congruence;
      rewrite Hp in He1; injection He1 as <-; try congruence;
      rewrite Hloop in He4; try discriminate; injection He4 as <- <-;
      try congruence.
    injection He6 as <-. eexists. split; reflexivity.
  - intros x w' Hrun. revert Hrun.
    run_cases env payload w; intros Hrun.
    + apply parse_ids_Raise in He1 as (it & _ & ->).
      injection Hrun as <- <-. right. by eexists.
    + injection Hrun as <- <-. right. by eexists.
    + injection Hrun as <- <-. by left.
    + apply price_lines_Raise in He4 as [e' ->].
      injection Hrun as <- <-. right. by eexists.
    + injection Hrun as <- <-. right. by eexists.
    + injection Hrun as <- <-. right. by eexists.
    + discriminate.
  - run_cases env payload w; cbn.
    + exists []. split; [|by left].
      apply parse_ids_Raise in He1 as (it & _ & ->). cbn. by rewrite app_nil_r.
    + eexists. split; [done|]. right. left. by eexists.
    + eexists. split; [done|]. right. left. by eexists.
    + eexists [CallFind ids']. split; [|right; left; by eexists].
      by apply price_lines_Raise in He4 as [e' ->].
    + eexists. split; [done|]. right. left. by eexists.
    + eexists. split; [done|]. right. right. by eexists _, _.
    + eexists. split; [done|]. right. right. by eexists _, _.
Qed.

(** ** The order collection *)

(** C5: a run that returns leaves exactly one new document in the order
    collection, a run that fails leaves none; create_document is called at
    most once, and only with the record made after the products were
    resolved, the lines priced, tax and total computed and the invoice
    number generated. *)
Theorem one_insert_only_on_success env payload w :
  let out := checkout env payload w in
  exists cs,
    product out.2 = product w /\
    calls out.2 = calls w ++ cs /\
    match out.1 with
    | Ok r =>
        exists ids o,
          order out.2 = order w ++ [(Response.order_id r, o)] /\
          cs = [CallFind ids; CallCreate o]
    | Raise _ => order out.2 = order w
    end /\
    forall o,
      CallCreate o ∈ cs ->
      exists ids line_items subtotal,
        cs = [CallFind ids; CallCreate o] /\
        parse_ids payload = Ok ids /\
        find_raises env = None /\
        size (build_product_map (found w ids)) = length ids /\
        price_lines (build_product_map (found w ids))
          (CheckoutRequest.items payload) [] PyFloat.zero
          = Ok (line_items, subtotal) /\
        Order_raises env o = None /\
        o = order_of env payload line_items subtotal.
Proof.
  assert (Hnone : forall (ids : list ObjectId.t) o,
            CallCreate o ∈ [CallFind ids] -> False).
  { intros ids o H. apply list_elem_of_singleton in H. discriminate. }
  cbv zeta. run_cases env payload w; cbn [fst snd].
  - exists []. apply parse_ids_Raise in He1 as (it & _ & ->). cbn.
    rewrite app_nil_r. repeat split; try done.
    by intros o H%elem_of_nil.
  - exists [CallFind ids']. repeat split; try done.
    intros o H. by apply Hnone in H.
  - exists [CallFind ids']. repeat split; try done.
    intros o H. by apply Hnone in H.
  - exists [CallFind ids']. apply price_lines_Raise in He4 as [e' ->]. cbn.
    repeat split; try done. intros o H. by apply Hnone in H.
  - exists [CallFind ids']. repeat split; try done.
    intros o H. by apply Hnone in H.
  - eexists. split; [done|]. split; [done|]. split; [done|].
    intros o H. apply elem_of_cons in H as [H|H]; [discriminate|].
    apply list_elem_of_singleton in H. injection H as ->.
    by exists ids', lis', s'.
  - eexists. split; [done|]. split; [done|]. split.
    + by eexists _, _.
    + intros o H. apply elem_of_cons in H as [H|H]; [discriminate|].
      apply list_elem_of_singleton in H. injection H as ->.
      by exists ids', lis', s'.
Qed.

(** ** The theorems at concrete carts *)

Ltac by_decide :=
  match goal with
  | |- ?P => apply (bool_decide_unpack P); vm_compute; exact I
  end.

Lemma example_cart_totals_witness :
  exists r w',
    checkout Examples.healthy
      (Examples.cart [(Examples.id_a, 3); (Examples.id_b, 1)]) Examples.shop
      = (Ok r, w') /\
    Response.subtotal r = PyFloat.literal 3497 2 /\
    Response.tax r = PyFloat.literal 350 2 /\
    Response.total r = PyFloat.literal 3847 2.
Proof.
  apply (example_cart_totals Examples.healthy
           (Examples.cart [(Examples.id_a, 3); (Examples.id_b, 1)])
           Examples.shop
           {| CartItem.product_id := Examples.id_a; CartItem.quantity := 3 |}
           {| CartItem.product_id := Examples.id_b; CartItem.quantity := 1 |}
           (Examples.doc Examples.id_a "Rice 1kg"
              (Some (PFloat (PyFloat.literal 999 2))))
           (Examples.doc Examples.id_b "Salt"
              (Some (PFloat (PyFloat.literal 5 0)))));
    try reflexivity.
  - by left.
  - by right; left.
  - by_decide.
  - by_decide.
Defined.

Lemma empty_cart_accepted_witness :
  exists r w' o,
    checkout Examples.healthy (Examples.cart []) Examples.shop = (Ok r, w') /\
    Response.subtotal r = PyFloat.zero /\
    Response.tax r = PyFloat.zero /\
    Response.total r = PyFloat.zero /\
    Response.items r = [] /\
    Response.invoice_number r
      = invoice_number_of (ObjectId.generate (new_oid Examples.healthy)) /\
    order w' = order Examples.shop ++ [(Response.order_id r, o)] /\
    Order.items o = [] /\
    Order.subtotal o = PyFloat.zero /\
    Order.total o = PyFloat.zero.
Proof.
  apply (empty_cart_accepted Examples.healthy (Examples.cart [])
           Examples.shop); reflexivity.
Defined.

Lemma nonpositive_quantity_priced_witness :
  exists r w' li,
    checkout Examples.healthy
      (Examples.cart [(Examples.id_a, -2); (Examples.id_b, 0)]) Examples.shop
      = (Ok r, w') /\
    Response.items r !! 0%nat = Some li /\
    LineItem.quantity li = -2 /\
    mul_int (LineItem.unit_price li) (-2) = Ok (LineItem.line_total li) /\
    let subtotal := PyFloat.sum (LineItem.line_total <$> Response.items r) in
    Response.subtotal r = PyFloat.round2 subtotal /\
    Response.tax r = PyFloat.round2 (PyFloat.mul subtotal tax_rate) /\
    Response.total r = PyFloat.round2 (PyFloat.add subtotal (Response.tax r)).
Proof.
  apply (nonpositive_quantity_priced Examples.healthy
           (Examples.cart [(Examples.id_a, -2); (Examples.id_b, 0)])
           Examples.shop 0%nat
           {| CartItem.product_id := Examples.id_a; CartItem.quantity := -2 |});
    try reflexivity.
  - repeat constructor.
    + exists (Examples.doc Examples.id_a "Rice 1kg"
                (Some (PFloat (PyFloat.literal 999 2)))).
      split; [by left|]. repeat split; try reflexivity; by eexists.
    + exists (Examples.doc Examples.id_b "Salt"
                (Some (PFloat (PyFloat.literal 5 0)))).
      split; [by right; left|]. repeat split; try reflexivity; by eexists.
  - by_decide.
  - by_decide.
  - cbn. lia.
Defined.

(** C4 as stated fails: the reference "abc" is the identifier of no
    product, and the answer is a 500, not the 400. *)
Lemma malformed_reference_is_server_error :
  (forall d, d ∈ product Examples.shop ->
     ObjectId.str (Product._id d) <> "abc") /\
  checkout Examples.healthy (Examples.cart [("abc", 1)]) Examples.shop
  = (Raise (HTTPException 500 (DetailStr (InvalidId "abc"))), Examples.shop).
Proof.
  split; [|by vm_compute].
  intros d Hd. cbn in Hd.
  repeat (apply elem_of_cons in Hd as [->|Hd]; [by vm_compute|]).
  by apply elem_of_nil in Hd.
Qed.

Lemma failure_outcomes_witness :
  checkout Examples.healthy
    (Examples.cart [(Examples.id_a, 1); (Examples.id_missing, 1)])
    Examples.shop
  = (Raise not_found,
     logged Examples.shop
       [CallFind [Examples.oid_of Examples.id_a;
                  Examples.oid_of Examples.id_missing]]).
Proof.
  apply (proj1 (failure_outcomes Examples.healthy
                  (Examples.cart [(Examples.id_a, 1); (Examples.id_missing, 1)])
                  Examples.shop)
           _
           {| CartItem.product_id := Examples.id_missing;
              CartItem.quantity := 1 |}
           (Examples.oid_of Examples.id_missing)).
  - reflexivity.
  - reflexivity.
  - by right; left.
  - reflexivity.
  - by_decide.
Defined.

Lemma one_insert_only_on_success_witness :
  exists cs,
    calls (checkout Examples.healthy
             (Examples.cart [(Examples.id_a, 3); (Examples.id_b, 1)])
             Examples.shop).2 = calls Examples.shop ++ cs /\
    length (order (checkout Examples.healthy
                     (Examples.cart [(Examples.id_a, 3); (Examples.id_b, 1)])
                     Examples.shop).2) = 1%nat.
Proof.
  destruct (one_insert_only_on_success Examples.healthy
              (Examples.cart [(Examples.id_a, 3); (Examples.id_b, 1)])
              Examples.shop) as (cs & _ & Hcalls & _).
  exists cs. split; [exact Hcalls|reflexivity].
Defined.

(** * Further properties of the endpoints *)

(** ** When the 400 is raised *)

Lemma size_list_to_set_lt (l : list string) :
  ~ NoDup l -> (size (list_to_set l : gset string) < length l)%nat.
Proof.
  induction l as [|x l IH]; intros Hnd; [destruct Hnd; constructor|].
  cbn. destruct (decide (x ∈ l)) as [Hin|Hnin].
  - assert (({[x]} ∪ list_to_set l : gset string) = list_to_set l) as ->.
    { apply subseteq_union_1_L, singleton_subseteq_l.
      by apply elem_of_list_to_set. }
    pose proof (size_list_to_set_le l). lia.
  - assert (~ NoDup l) as Hl.
    { intros H. apply Hnd. by constructor. }
    apply IH in Hl. rewrite size_union_alt, size_singleton.
    assert (size (list_to_set l ∖ {[x]} : gset string)
            <= size (list_to_set l : gset string))%nat
      by (apply subseteq_size, subseteq_difference_l; reflexivity).
    lia.
Qed.

Lemma product_map_keys_requested w ids :
  dom (build_product_map (found w ids))
  ⊆ (list_to_set (ObjectId.str <$> ids) : gset string).
Proof.
  rewrite product_map_dom. intros k Hk.
  apply elem_of_list_to_set, list_elem_of_fmap in Hk as (d & -> & Hd).
  apply found_elem in Hd as [_ Hid].
  apply elem_of_list_to_set, list_elem_of_fmap. by exists (Product._id d).
Qed.

Lemma size_product_map_repeated w ids :
  ~ NoDup ids ->
  (size (build_product_map (found w ids)) < length ids)%nat.
Proof.
  intros Hnd.
  pose proof (subseteq_size _ _ (product_map_keys_requested w ids)) as Hle.
  rewrite size_dom in Hle.
  assert (~ NoDup (ObjectId.str <$> ids)) as Hs.
  { intros H. by apply NoDup_fmap_1 in H. }
  apply size_list_to_set_lt in Hs. rewrite length_fmap in Hs. lia.
Qed.

Lemma size_product_map_resolved w ids :
  NoDup ids ->
  (forall o, o ∈ ids -> o ∈ Product._id <$> product w) ->
  NoDup (Product._id <$> product w) ->
  size (build_product_map (found w ids)) = length ids.
Proof.
  intros Hnd Hres Huniq.
  assert (Hfnd : NoDup (Product._id <$> found w ids)).
  { eapply sublist_NoDup; [exact Huniq|].
    apply fmap_sublist, sublist_filter. }
  rewrite size_product_map_NoDup.
  - rewrite <- (length_fmap Product._id). apply Permutation_length.
    apply NoDup_Permutation; [done|done|]. intros o. split.
    + intros (d & -> & Hd)%list_elem_of_fmap.
      by apply found_elem in Hd as [_ ?].
    + intros Ho. pose proof (Hres o Ho) as Hc.
      apply list_elem_of_fmap in Hc as (d & -> & Hd).
      apply list_elem_of_fmap. exists d. split; [done|].
      by apply found_elem.
  - rewrite (list_fmap_compose Product._id ObjectId.str).
    by apply (NoDup_fmap_2 ObjectId.str).
Qed.

Lemma run_not_found_iff env payload w ids :
  parse_ids payload = Ok ids ->
  find_raises env = None ->
  (checkout env payload w).1 = Raise not_found
  <-> size (build_product_map (found w ids)) <> length ids.
Proof.
  intros Hp Hfind.
  run_cases env payload w; cbn [fst]; try congruence;
    rewrite Hp in He1; injection He1 as <-.
  - tauto.
  - apply price_lines_Raise in He4 as [e' ->]. cbn. split; [discriminate|done].
  - split; [discriminate|done].
  - split; [discriminate|done].
  - split; [discriminate|done].
Qed.

(** X1: with well-formed references, a working lookup and unique [_id]s
    in the collection, checkout raises the 400 "One or more products not
    found" exactly when some identifier is requested twice or some
    identifier is in no product document. *)
Theorem not_found_exactly env payload w ids :
  parse_ids payload = Ok ids ->
  find_raises env = None ->
  NoDup (Product._id <$> product w) ->
  (checkout env payload w).1 = Raise not_found
  <-> (~ NoDup ids \/ exists u, u ∈ ids /\ u ∉ Product._id <$> product w).
Proof.
  intros Hp Hfind Huniq. rewrite (run_not_found_iff env payload w ids Hp Hfind).
  split.
  - intros Hsize. destruct (decide (NoDup ids)) as [Hnd|Hnd]; [|by left].
    right.
    destruct (decide (Forall (fun o => o ∈ Product._id <$> product w) ids))
      as [Hall|Hall].
    + destruct Hsize. apply size_product_map_resolved; try done.
      by apply Forall_forall.
    + apply not_Forall_Exists in Hall; [|apply _].
      apply Exists_exists in Hall as (u & Hu & Hnot). by exists u.
  - intros [Hnd|(u & Hu & Hnot)].
    + pose proof (size_product_map_repeated w ids Hnd). lia.
    + pose proof (size_product_map_unresolved w ids u Hu Hnot). lia.
Qed.

(** X2: two cart items whose references denote the same identifier, even
    written in different letter case, make checkout raise the 400, whatever
    the collection holds; the lookup has been made once by then. *)
Theorem repeated_reference_rejected env payload w ids i j a b o :
  parse_ids payload = Ok ids ->
  find_raises env = None ->
  i <> j ->
  CheckoutRequest.items payload !! i = Some a ->
  CheckoutRequest.items payload !! j = Some b ->
  ObjectId.of_str (CartItem.product_id a) = Ok o ->
  ObjectId.of_str (CartItem.product_id b) = Ok o ->
  checkout env payload w = (Raise not_found, logged w [CallFind ids]).
Proof.
  intros Hp Hfind Hij Ha Hb Hoa Hob.
  assert (~ NoDup ids) as Hnd.
  { pose proof Hp as HF. apply comprehension_Ok in HF.
    destruct (Forall2_lookup_l _ _ _ _ _ HF Ha) as (oa & Hia & Hoa').
    destruct (Forall2_lookup_l _ _ _ _ _ HF Hb) as (ob & Hib & Hob').
    assert (oa = o) as -> by congruence. assert (ob = o) as -> by congruence.
    intros Hnd. apply Hij. by eapply NoDup_lookup. }
  pose proof (size_product_map_repeated w ids Hnd) as Hlt.
  run_cases env payload w; try congruence;
    rewrite Hp in He1; injection He1 as <-; try done; lia.
Qed.

(** ** Which carts go through *)

Lemma of_str_canonical s o bs :
  ObjectId.of_str s = Ok o -> s = ObjectId.str bs -> o = bs.
Proof.
  unfold ObjectId.of_str, ObjectId.str. intros H ->.
  destruct (_ =? _)%nat; [|discriminate].
  rewrite fromhex_hexlify in H. by injection H.
Qed.


Lemma priced_documents w ids items lis :
  Forall2 (fun item li =>
             price_line (build_product_map (found w ids)) item = Ok li)
    items lis ->
  Forall2 (fun item li =>
             exists d,
               d ∈ product w /\
               CartItem.product_id item = ObjectId.str (Product._id d) /\
               line_item d item = Ok li) items lis.
Proof.
  intros Hlis. eapply Forall2_impl; [exact Hlis|]. intros item li Hli.
  unfold price_line in Hli.
  destruct (_ !! _) as [d|] eqn:Hd; [|discriminate].
  apply build_product_map_lookup in Hd as [Hin Hk].
  apply found_elem in Hin as [Hin _]. by exists d.
Qed.


(** X4: a reference that ObjectId accepts but that is not the text
    [str()] gives for its identifier (upper-case digits, say) passes the
    400 check when it resolves, then finds no key in [product_map]: the
    answer is a 500 and no order is created. *)
Theorem noncanonical_reference_is_server_error env payload w ids item o :
  parse_ids payload = Ok ids ->
  find_raises env = None ->
  NoDup ids ->
  (forall u, u ∈ ids -> u ∈ Product._id <$> product w) ->
  NoDup (Product._id <$> product w) ->
  item ∈ CheckoutRequest.items payload ->
  ObjectId.of_str (CartItem.product_id item) = Ok o ->
  CartItem.product_id item <> ObjectId.str o ->
  exists e,
    checkout env payload w
    = (Raise (HTTPException 500 (DetailStr e)), logged w [CallFind ids]).
Proof.
  intros Hp Hfind Hnd Hres Huniq Hin Ho Hne.
  pose proof (size_product_map_resolved w ids Hnd Hres Huniq) as Hsize.
  assert (Hloop : forall lis s,
            price_lines (build_product_map (found w ids))
              (CheckoutRequest.items payload) [] PyFloat.zero
            <> Ok (lis, s)).
  { intros lis s Hloop.
    apply price_lines_Ok in Hloop as (new & _ & Hall & _).
    apply priced_documents in Hall.
    apply list_elem_of_lookup in Hin as [i Hi].
    destruct (Forall2_lookup_l _ _ _ _ _ Hall Hi) as (li & _ & d & _ & Hk & _).
    apply Hne. by rewrite (of_str_canonical _ _ _ Ho Hk). }
  run_cases env payload w; try congruence;
    rewrite Hp in He1; injection He1 as <-; try congruence;
    try (by apply Hloop in He4).
  apply price_lines_Raise in He4 as [e' ->]. by eexists.
Qed.

(** ** Invoice numbers *)

Lemma to_bytes_be_mod len n :
  PyStr.to_bytes_be len n = PyStr.to_bytes_be len (n mod 256 ^ N.of_nat len)%N.
Proof.
  revert n. induction len as [|len IH]; intros n; [done|].
  cbn [PyStr.to_bytes_be].
  rewrite Nat2N.inj_succ, N.pow_succ_r'.
  rewrite N.Div0.mod_mul_r.
  assert (Hr : (n mod 256 < 256)%N) by (by apply N.mod_upper_bound).
  set (r := (n mod 256)%N) in *.
  set (x := ((n / 256) mod 256 ^ N.of_nat len)%N).
  rewrite <- (N.div_unique (r + 256 * x) 256 x r) by (done || lia).
  rewrite <- (N.mod_unique (r + 256 * x) 256 x r) by (done || lia).
  subst x. by rewrite <- IH.
Qed.

Lemma to_bytes_be_split a b n :
  PyStr.to_bytes_be (a + b) n
  = PyStr.to_bytes_be a (n / 256 ^ N.of_nat b)%N ++ PyStr.to_bytes_be b n.
Proof.
  revert n. induction b as [|b IH]; intros n.
  - rewrite Nat.add_0_r. cbn. by rewrite N.div_1_r, app_nil_r.
  - rewrite Nat.add_succ_r. cbn [PyStr.to_bytes_be].
    rewrite IH, <- app_assoc. f_equal.
    rewrite Nat2N.inj_succ, N.pow_succ_r'. by rewrite N.Div0.div_div.
Qed.

Lemma hexlify_app bs1 bs2 :
  PyStr.hexlify (bs1 ++ bs2) = PyStr.hexlify bs1 +:+ PyStr.hexlify bs2.
Proof.
  induction bs1 as [|b bs1 IH]; [done|].
  cbn [app PyStr.hexlify]. by rewrite IH.
Qed.

Lemma last_chars_all n s : String.length s = n -> PyStr.last_chars n s = s.
Proof.
  intros <-. unfold PyStr.last_chars. rewrite Nat.sub_diag. cbn.
  apply string_of_list_ascii_of_string.
Qed.

Lemma invoice_number_low_bytes seed :
  invoice_number_of (ObjectId.generate seed)
  = PyStr.hexlify (PyStr.to_bytes_be 4 (seed mod 2 ^ 32)%N).
Proof.
  destruct (invoice_number_of_generated seed) as (_ & -> & _).
  unfold ObjectId.str, ObjectId.generate.
  rewrite (to_bytes_be_split 8 4), hexlify_app.
  rewrite last_chars_append
    by (rewrite length_hexlify, length_to_bytes_be; lia).
  rewrite last_chars_all by (by rewrite length_hexlify, length_to_bytes_be).
  by rewrite (to_bytes_be_mod 4).
Qed.

(** X5: the invoice number depends only on the last four bytes of the
    generated identifier: two successful checkouts whose identifiers agree
    on them return the same invoice number. *)
Theorem invoice_number_collides env1 env2 payload1 payload2 w1 w2 r1 r2 w1' w2' :
  checkout env1 payload1 w1 = (Ok r1, w1') ->
  checkout env2 payload2 w2 = (Ok r2, w2') ->
  (new_oid env1 mod 2 ^ 32 = new_oid env2 mod 2 ^ 32)%N ->
  Response.invoice_number r1 = Response.invoice_number r2.
Proof.
  intros H1 H2 Hmod.
  apply checkout_Ok in H1 as (? & ? & ? & _ & _ & _ & _ & _ & _ & -> & _).
  apply checkout_Ok in H2 as (? & ? & ? & _ & _ & _ & _ & _ & _ & -> & _).
  cbn [response_of Response.invoice_number].
  by rewrite !invoice_number_low_bytes, Hmod.
Qed.

(** X6: the invoice number of a successful checkout is always 8
    lower-case hexadecimal digits. *)
Theorem invoice_number_format env payload w r w' :
  checkout env payload w = (Ok r, w') ->
  String.length (Response.invoice_number r) = 8%nat /\
  Forall (fun c => is_lower_hex c = true)
    (list_ascii_of_string (Response.invoice_number r)).
Proof.
  intros H.
  apply checkout_Ok in H as (? & ? & ? & _ & _ & _ & _ & _ & _ & -> & _).
  cbn [response_of Response.invoice_number].
  by destruct (invoice_number_of_generated (new_oid env)) as (_ & _ & ? & ?).
Qed.

(** X7: on success there is one line item per cart item, the order
    identifier is the one the store assigned, and the order inserted has
    the customer fields of the request and the line items, subtotal, tax,
    total and invoice number of the response. *)
Theorem persisted_order_matches_response env payload w r w' :
  checkout env payload w = (Ok r, w') ->
  length (Response.items r) = length (CheckoutRequest.items payload) /\
  Response.order_id r = new_order_id env /\
  exists o,
    order w' = order w ++ [(Response.order_id r, o)] /\
    Order.customer_name o = CheckoutRequest.customer_name payload /\
    Order.customer_email o = CheckoutRequest.customer_email payload /\
    Order.customer_address o = CheckoutRequest.customer_address payload /\
    Order.items o = Response.items r /\
    Order.subtotal o = Response.subtotal r /\
    Order.tax o = Response.tax r /\
    Order.total o = Response.total r /\
    Order.invoice_number o = Response.invoice_number r.
Proof.
  intros H.
  apply checkout_Ok in H
    as (ids & lis & s & _ & _ & _ & Hloop & _ & _ & -> & ->).
  apply price_lines_Ok in Hloop as (new & -> & Hall & _).
  split; [symmetry; by eapply Forall2_length|]. split; [done|].
  eexists. split; [reflexivity|]. cbn. by repeat split.
Qed.


(** ** The catalog listing *)

(** X8: list_products returns one document per document read, in the
    same order; each has lost its [_id] key, has an [id] key holding the
    text of the former [_id] (the empty text when there was none) and
    keeps every other key as it was. *)
Theorem list_products_relabels docs :
  exists out,
    list_products (inr docs) = Ok out /\
    length out = length docs /\
    forall i d,
      docs !! i = Some d ->
      exists d',
        out !! i = Some d' /\
        d' !! "_id" = None /\
        d' !! "id" = Some (VStr (py_str (default (VStr "") (d !! "_id")))) /\
        forall k, k <> "_id" -> k <> "id" -> d' !! k = d !! k.
Proof.
  exists (relabel <$> docs). split; [done|]. split; [by rewrite length_fmap|].
  intros i d Hd. exists (relabel d). split.
  { by rewrite list_lookup_fmap, Hd. }
  unfold relabel. split; [|split].
  - rewrite lookup_insert_ne by done. apply lookup_delete_eq.
  - apply lookup_insert_eq.
  - intros k Hk1 Hk2. rewrite lookup_insert_ne by done.
    by rewrite lookup_delete_ne.
Qed.

(** X9: for a document whose [_id] is a 12-byte ObjectId, the [id] that
    list_products reports is the text from which [ObjectId(...)], as used
    by checkout, recovers that very identifier. *)
Theorem listed_id_round_trip docs out i d oid :
  list_products (inr docs) = Ok out ->
  docs !! i = Some d ->
  d !! "_id" = Some (VObjectId oid) ->
  length oid = 12%nat ->
  exists d',
    out !! i = Some d' /\
    d' !! "id" = Some (VStr (ObjectId.str oid)) /\
    ObjectId.of_str (ObjectId.str oid) = Ok oid.
Proof.
  intros [= <-] Hd Hid Hlen. exists (relabel d).
  split; [by rewrite list_lookup_fmap, Hd|].
  split; [|by apply of_str_str].
  unfold relabel. by rewrite lookup_insert_eq, Hid.
Qed.

(** X10: a document without [_id] is listed with the empty text as its
    [id]; a cart that uses it as a product reference gets a 500 before any
    lookup is made, leaving the store as it was. *)
Theorem listed_without_id_is_malformed docs out i d d' env payload w item :
  list_products (inr docs) = Ok out ->
  docs !! i = Some d ->
  d !! "_id" = None ->
  out !! i = Some d' ->
  d' !! "id" = Some (VStr (CartItem.product_id item)) ->
  item ∈ CheckoutRequest.items payload ->
  CartItem.product_id item = "" /\
  exists e,
    checkout env payload w = (Raise (HTTPException 500 (DetailStr e)), w).
Proof.
  intros [= <-] Hd Hid Hout Hpid Hin.
  rewrite list_lookup_fmap, Hd in Hout. injection Hout as <-.
  unfold relabel in Hpid. rewrite lookup_insert_eq, Hid in Hpid.
  injection Hpid as Hpid. split; [done|].
  destruct (parse_ids_malformed payload item (Raised (InvalidId "")) Hin)
    as [e' He'].
  { by rewrite <- Hpid. }
  run_cases env payload w; try congruence.
  apply parse_ids_Raise in He1 as (it & _ & ->). cbn. by eexists.
Qed.

(** X11: the relabelling is not idempotent: listing documents that
    list_products already relabelled replaces every [id] by the empty
    text. *)
Theorem relisting_loses_ids docs out out' i d' :
  list_products (inr docs) = Ok out ->
  list_products (inr out) = Ok out' ->
  out' !! i = Some d' ->
  d' !! "id" = Some (VStr "").
Proof.
  intros [= <-] [= <-] Hi.
  rewrite <- list_fmap_compose, list_lookup_fmap in Hi.
  destruct (docs !! i) as [d|]; [|discriminate]. injection Hi as <-. cbn.
  unfold relabel at 1. rewrite lookup_insert_eq.
  replace (relabel d !! "_id") with (@None value); [done|].
  unfold relabel. rewrite lookup_insert_ne by done.
  by rewrite lookup_delete_eq.
Qed.

(** ** The database report *)


(** X12: whatever the handle and the environment, test_database reports
    the backend as running and never returns the initial database text
    "Not Available". *)
Theorem report_never_not_available db url :
  Health.backend (Health.test_database db url) = "✅ Running" /\
  Health.database (Health.test_database db url) <> "❌ Not Available".
Proof.
  unfold Health.test_database.
  destruct db as [[[e|n] [e'|names]]|]; cbn; (split; [done|]);
    cbv [String.append]; discriminate.
Qed.

(** X13: test_database reports "Connected & Working" exactly when the
    handle exists, its name can be read and its collections can be listed;
    it then reports the status "Connected" and the first 10 collection
    names, and collection names are reported in no other case. *)
Theorem report_working_iff db url :
  let r := Health.test_database db url in
  (Health.database r = "✅ Connected & Working"
   <-> exists h n names,
         db = Some h /\ Health.name h = inr n /\
         Health.list_collection_names h = inr names) /\
  (forall h n names,
     db = Some h -> Health.name h = inr n ->
     Health.list_collection_names h = inr names ->
     Health.connection_status r = "Connected" /\
     Health.collections r = take 10 names /\
     (length (Health.collections r) <= 10)%nat) /\
  (Health.collections r <> [] -> Health.database r = "✅ Connected & Working").
Proof.
  unfold Health.test_database.
  destruct db as [[[e|n] [e'|names]]|]; cbn; (split; [|split]);
    try (split; [cbv [String.append]; discriminate|]);
    try (intros (h & n' & names' & [= <-] & Hn & Hl); cbn in *; discriminate);
    try (intros h n' names' [= <-] Hn Hl; cbn in *; try discriminate);
    try done.
  - split; [|done]. intros _. by eexists _, _, _.
  - injection Hl as <-. split; [done|]. split; [done|].
    rewrite length_take. lia.
Qed.


(** X15: the report says the database URL is set exactly when the handle
    exists and DATABASE_URL is a non-empty text; an empty value counts as
    not set. *)
Theorem report_url_set_iff db url :
  Health.database_url (Health.test_database db url) = Some "✅ Set"
  <-> (exists h, db = Some h) /\ exists s, url = Some s /\ s <> "".
Proof.
  unfold Health.test_database.
  destruct db as [[[e|n] [e'|names]]|]; cbn;
    try (split; [discriminate|by intros [[h [=]] _]]);
    (destruct url as [s|]; cbn;
     [destruct (String.eqb_spec s "") as [->|Hs]; cbn|]);
    (split;
     [try discriminate; intros _; split; by eexists
     |try done; intros [_ (s' & [= <-] & Hs')]; try done]).
Qed.

(** ** Lines that cannot be priced *)

(** X16: when the 400 check passes but the line of some item cannot be
    priced (a null price, a quantity too large for a float), checkout
    answers with a 500 after the single lookup and creates no order. *)
Theorem unpriceable_line_is_server_error env payload w ids item d x :
  parse_ids payload = Ok ids ->
  find_raises env = None ->
  NoDup ids ->
  (forall u, u ∈ ids -> u ∈ Product._id <$> product w) ->
  NoDup (Product._id <$> product w) ->
  item ∈ CheckoutRequest.items payload ->
  d ∈ product w ->
  CartItem.product_id item = ObjectId.str (Product._id d) ->
  line_item d item = Raise x ->
  exists e,
    checkout env payload w
    = (Raise (HTTPException 500 (DetailStr e)), logged w [CallFind ids]).
Proof.
  intros Hp Hfind Hnd Hres Huniq Hin Hd Hpid Hline.
  pose proof (size_product_map_resolved w ids Hnd Hres Huniq) as Hsize.
  assert (Hfound : d ∈ found w ids).
  { apply found_elem. split; [done|].
    apply list_elem_of_lookup in Hin as [i Hi].
    pose proof Hp as HF. apply comprehension_Ok in HF.
    destruct (Forall2_lookup_l _ _ _ _ _ HF Hi) as (o & Ho & Hoo).
    rewrite <- (of_str_canonical _ _ _ Hoo Hpid).
    by eapply list_elem_of_lookup_2. }
  assert (Hkeys : NoDup ((fun p => ObjectId.str (Product._id p))
                           <$> found w ids)).
  { rewrite (list_fmap_compose Product._id ObjectId.str).
    apply (NoDup_fmap_2 ObjectId.str).
    eapply sublist_NoDup; [exact Huniq|].
    apply fmap_sublist, sublist_filter. }
  assert (Hloop : forall lis s,
            price_lines (build_product_map (found w ids))
              (CheckoutRequest.items payload) [] PyFloat.zero
            <> Ok (lis, s)).
  { intros lis s Hloop.
    apply price_lines_Ok in Hloop as (new & _ & Hall & _).
    apply list_elem_of_lookup in Hin as [i Hi].
    destruct (Forall2_lookup_l _ _ _ _ _ Hall Hi) as (li & _ & Hli).
    unfold price_line in Hli.
    rewrite Hpid, (product_map_lookup_in _ _ Hkeys Hfound) in Hli.
    congruence. }
  run_cases env payload w; try congruence;
    rewrite Hp in He1; injection He1 as <-; try congruence;
    try (by apply Hloop in He4).
  apply price_lines_Raise in He4 as [e' ->]. by eexists.
Qed.

(** ** The further properties at concrete inputs *)

Lemma not_found_exactly_witness :
  (checkout Examples.healthy
     (Examples.cart [(Examples.id_a, 1); (Examples.id_missing, 1)])
     Examples.shop).1 = Raise not_found.
Proof.
  apply (not_found_exactly Examples.healthy
           (Examples.cart [(Examples.id_a, 1); (Examples.id_missing, 1)])
           Examples.shop
           [Examples.oid_of Examples.id_a;
            Examples.oid_of Examples.id_missing]);
    [reflexivity|reflexivity|by_decide|].
  right. exists (Examples.oid_of Examples.id_missing).
  split; [by right; left|by_decide].
Defined.

Lemma repeated_reference_rejected_witness :
  checkout Examples.healthy
    (Examples.cart [(Examples.id_a, 1); ("64B7F0C2A1B2C3D4E5F60718", 1)])
    Examples.shop
  = (Raise not_found,
     logged Examples.shop
       [CallFind [Examples.oid_of Examples.id_a;
                  Examples.oid_of Examples.id_a]]).
Proof.
  apply (repeated_reference_rejected Examples.healthy
           (Examples.cart
              [(Examples.id_a, 1); ("64B7F0C2A1B2C3D4E5F60718", 1)])
           Examples.shop _ 0%nat 1%nat
           {| CartItem.product_id := Examples.id_a; CartItem.quantity := 1 |}
           {| CartItem.product_id := "64B7F0C2A1B2C3D4E5F60718";
              CartItem.quantity := 1 |}
           (Examples.oid_of Examples.id_a));
    (reflexivity || lia).
Defined.


Lemma noncanonical_reference_is_server_error_witness :
  exists e,
    checkout Examples.healthy
      (Examples.cart [("64B7F0C2A1B2C3D4E5F60718", 1)]) Examples.shop
    = (Raise (HTTPException 500 (DetailStr e)),
       logged Examples.shop [CallFind [Examples.oid_of Examples.id_a]]).
Proof.
  apply (noncanonical_reference_is_server_error Examples.healthy
           (Examples.cart [("64B7F0C2A1B2C3D4E5F60718", 1)]) Examples.shop
           [Examples.oid_of Examples.id_a]
           {| CartItem.product_id := "64B7F0C2A1B2C3D4E5F60718";
              CartItem.quantity := 1 |}
           (Examples.oid_of Examples.id_a)); try reflexivity.
  - by_decide.
  - intros u Hu. apply list_elem_of_singleton in Hu as ->. by left.
  - by_decide.
  - by left.
  - by_decide.
Defined.

Lemma invoice_number_collides_witness :
  exists r1 r2 w1 w2,
    checkout Examples.healthy (Examples.cart [(Examples.id_a, 1)])
      Examples.shop = (Ok r1, w1) /\
    checkout (with_new_oid Examples.healthy
                (new_oid Examples.healthy + 2 ^ 32 * 987654321)%N)
      (Examples.cart [(Examples.id_b, 2)]) Examples.shop = (Ok r2, w2) /\
    Response.invoice_number r1 = Response.invoice_number r2.
Proof.
  eexists _, _, _, _. split; [vm_compute; reflexivity|].
  split; [vm_compute; reflexivity|].
  eapply (invoice_number_collides Examples.healthy
            (with_new_oid Examples.healthy
               (new_oid Examples.healthy + 2 ^ 32 * 987654321)%N)
            (Examples.cart [(Examples.id_a, 1)])
            (Examples.cart [(Examples.id_b, 2)])
            Examples.shop Examples.shop);
    vm_compute; reflexivity.
Defined.

Lemma invoice_number_format_witness :
  exists r w',
    checkout Examples.healthy (Examples.cart [(Examples.id_a, 1)])
      Examples.shop = (Ok r, w') /\
    String.length (Response.invoice_number r) = 8%nat.
Proof.
  eexists _, _. split; [vm_compute; reflexivity|].
  eapply (invoice_number_format Examples.healthy
            (Examples.cart [(Examples.id_a, 1)]) Examples.shop).
  vm_compute. reflexivity.
Defined.

Lemma persisted_order_matches_response_witness :
  exists r w',
    checkout Examples.healthy
      (Examples.cart [(Examples.id_a, 3); (Examples.id_b, 1)]) Examples.shop
      = (Ok r, w') /\
    length (Response.items r) = 2%nat.
Proof.
  eexists _, _. split; [vm_compute; reflexivity|].
  eapply (persisted_order_matches_response Examples.healthy
            (Examples.cart [(Examples.id_a, 3); (Examples.id_b, 1)])
            Examples.shop).
  vm_compute. reflexivity.
Defined.

Lemma listed_id_round_trip_witness :
  exists d',
    (relabel <$> [document_a]) !! 0%nat = Some d' /\
    d' !! "id" = Some (VStr Examples.id_a) /\
    ObjectId.of_str Examples.id_a = Ok (Examples.oid_of Examples.id_a).
Proof.
  apply (listed_id_round_trip [document_a]
           (relabel <$> [document_a]) 0%nat document_a
           (Examples.oid_of Examples.id_a)); reflexivity.
Defined.

Lemma listed_without_id_is_malformed_witness :
  exists e,
    checkout Examples.healthy (Examples.cart [("", 1)]) Examples.shop
    = (Raise (HTTPException 500 (DetailStr e)), Examples.shop).
Proof.
  apply (listed_without_id_is_malformed [document_no_id]
           (relabel <$> [document_no_id]) 0%nat
           document_no_id (relabel document_no_id)
           Examples.healthy (Examples.cart [("", 1)]) Examples.shop
           {| CartItem.product_id := ""; CartItem.quantity := 1 |});
    try reflexivity.
  by left.
Defined.

Lemma relisting_loses_ids_witness :
  relabel (relabel document_a) !! "id" = Some (VStr "").
Proof.
  apply (relisting_loses_ids [document_a]
           (relabel <$> [document_a])
           (relabel <$> (relabel <$> [document_a])) 0%nat);
    reflexivity.
Defined.


Lemma unpriceable_line_is_server_error_witness :
  exists e,
    checkout Examples.healthy (Examples.cart [(Examples.id_a, 2 ^ 1024)])
      Examples.shop
    = (Raise (HTTPException 500 (DetailStr e)),
       logged Examples.shop [CallFind [Examples.oid_of Examples.id_a]]).
Proof.
  apply (unpriceable_line_is_server_error Examples.healthy
           (Examples.cart [(Examples.id_a, 2 ^ 1024)]) Examples.shop
           [Examples.oid_of Examples.id_a]
           {| CartItem.product_id := Examples.id_a;
              CartItem.quantity := 2 ^ 1024 |}
           (Examples.doc Examples.id_a "Rice 1kg"
              (Some (PFloat (PyFloat.literal 999 2))))
           (Raised OverflowError)); try reflexivity.
  - by_decide.
  - intros u Hu. apply list_elem_of_singleton in Hu as ->. by left.
  - by_decide.
  - by left.
  - by left.
Defined.
